(** * Placeholder icon generator: a shallow embedding of
      [generate-location-icons.py] and the properties of its specification.

    The script is a flat procedure over the file system: a style table, a
    renderer ([draw_icon]), a category processor
    ([generate_icons_for_category]) and a directory walker ([main]).

    Modelling choices, stated once:
    - Python [str] is [string]; a character is an 8-bit [ascii], so manifests
      are taken to be ASCII text (the emoji of the messages are kept as their
      UTF-8 bytes).
    - Python [int] is [Z]; Python [float] is the binary64 [float] of Rocq.
    - The file system is a finite map from absolute paths to nodes, with POSIX
      path resolution; there are no symbolic links, permissions or quotas.
    - [print] appends one entry to the standard output of the world.
    - An effectful function is a state transformer over the world that either
      returns a value or raises an exception; the world reached so far is
      kept in both cases. *)

From Stdlib Require Import ZArith String Ascii List Floats DecimalString.
From stdpp Require Import gmap strings list.

Set Warnings "-inexact-float".
Local Open Scope Z_scope.

(** ** Python strings *)

Module str.

(** [s.startswith(pre)] *)
Definition startswith (s pre : string) : bool := String.prefix pre s.

(** [s.replace(old, new)] for a non-empty [old]: every non-overlapping
    occurrence, scanning from the left.  [skip] counts the characters of an
    occurrence that are still to be dropped. *)
Fixpoint replace_from (old new : string) (skip : nat) (s : string) : string :=
  match s with
  | EmptyString => EmptyString
  | String c s' =>
      match skip with
      | S k => replace_from old new k s'
      | O =>
          if String.prefix old s
          then new +:+ replace_from old new (Nat.pred (String.length old)) s'
          else String c (replace_from old new O s')
      end
  end.

Definition replace (s old new : string) : string := replace_from old new O s.

(** Characters removed by [s.strip()] in the ASCII range: tab, line feed,
    vertical tab, form feed, carriage return, the separators 28 to 31 and
    the space. *)
Definition isspace (c : ascii) : bool :=
  let n := nat_of_ascii c in
  ((9 <=? n)%nat && (n <=? 13)%nat) || ((28 <=? n)%nat && (n <=? 32)%nat).

Fixpoint lstrip_by (drop : ascii → bool) (s : string) : string :=
  match s with
  | EmptyString => EmptyString
  | String c s' => if drop c then lstrip_by drop s' else s
  end.

(** [rstrip_by drop s] keeps [s] up to its last character outside [drop]. *)
Fixpoint rstrip_by (drop : ascii → bool) (s : string) : string :=
  match s with
  | EmptyString => EmptyString
  | String c s' =>
      match rstrip_by drop s' with
      | EmptyString => if drop c then EmptyString else String c EmptyString
      | t => String c t
      end
  end.

(** [s.strip()] *)
Definition strip (s : string) : string := rstrip_by isspace (lstrip_by isspace s).

(** [s.lstrip(chars)] *)
Definition lstrip (s chars : string) : string :=
  lstrip_by (λ c, bool_decide (c ∈ list_ascii_of_string chars)) s.

(** [s[i:j]] for [0 <= i <= j] *)
Definition slice (s : string) (i j : nat) : string := String.substring i (j - i) s.

(** [s * n] *)
Fixpoint repeat (s : string) (n : nat) : string :=
  match n with
  | O => EmptyString
  | S k => s +:+ repeat s k
  end.

(** [s.split(sep)] for a one-character separator. *)
Fixpoint split (sep : ascii) (s : string) : list string :=
  match s with
  | EmptyString => [EmptyString]
  | String c s' =>
      if Ascii.eqb c sep then EmptyString :: split sep s'
      else match split sep s' with
           | x :: xs => String c x :: xs
           | [] => [String c EmptyString]
           end
  end.

(** [str(n)] for an integer. *)
Definition of_int (n : Z) : string := NilZero.string_of_int (Z.to_int n).

(** [s.endswith(suf)] *)
Fixpoint endswith (s suf : string) : bool :=
  String.eqb s suf ||
  match s with
  | EmptyString => false
  | String _ s' => endswith s' suf
  end.

(** [s.lower()] on ASCII letters. *)
Definition lower_char (c : ascii) : ascii :=
  let n := nat_of_ascii c in
  if ((65 <=? n)%nat && (n <=? 90)%nat)%bool then ascii_of_nat (n + 32) else c.

Fixpoint lower (s : string) : string :=
  match s with
  | EmptyString => EmptyString
  | String c s' => String (lower_char c) (lower s')
  end.

(** [sep.join(l)] *)
Fixpoint join (sep : string) (l : list string) : string :=
  match l with
  | [] => EmptyString
  | [x] => x
  | x :: l' => x +:+ sep +:+ join sep l'
  end.

(** The truth value of a string: non-empty. *)
Definition truthy (s : string) : bool :=
  match s with EmptyString => false | _ => true end.

End str.

(** ** Python numbers

    Coordinates mix [int] and [float] values as the script does; arithmetic
    promotes to [float] when either operand is one, and [/] is true division. *)

Inductive num : Set :=
| Int (z : Z)
| Float (f : float).

Coercion Int : Z >-> num.

Module num.

(** [float(z)], exact for the small integers of this program. *)
Definition float_of_int (z : Z) : float :=
  match z with
  | Z0 => 0%float
  | Zpos q => PrimFloat.of_uint63 (Uint63.of_pos q)
  | Zneg q => (- PrimFloat.of_uint63 (Uint63.of_pos q))%float
  end.

Definition to_float (x : num) : float :=
  match x with Int z => float_of_int z | Float f => f end.

Definition add (x y : num) : num :=
  match x, y with
  | Int a, Int b => Int (a + b)
  | _, _ => Float (to_float x + to_float y)
  end.

Definition sub (x y : num) : num :=
  match x, y with
  | Int a, Int b => Int (a - b)
  | _, _ => Float (to_float x - to_float y)
  end.

Definition mul (x y : num) : num :=
  match x, y with
  | Int a, Int b => Int (a * b)
  | _, _ => Float (to_float x * to_float y)
  end.

(** [x / y] with a non-zero [y] (the script divides by 2 and by 5 only). *)
Definition truediv (x y : num) : num := Float (to_float x / to_float y).

End num.

Declare Scope py_scope.
Delimit Scope py_scope with py.
Bind Scope py_scope with num.
Infix "+" := num.add : py_scope.
Infix "-" := num.sub : py_scope.
Infix "*" := num.mul : py_scope.
Infix "/" := num.truediv : py_scope.

(** [range(n)] *)
Definition range (n : nat) : list Z := Z.of_nat <$> seq 0 n.

(** ** Images: the calls made on a PIL canvas

    An image is recorded as the canvas it was created with and the sequence
    of [ImageDraw] calls applied to it; rasterisation is PIL's and is a
    function of this record. *)

Definition rgba : Set := Z * Z * Z * Z.

(** A colour argument is either an [(r, g, b)] tuple or a colour string. *)
Inductive color : Set :=
| ColorTuple (r g b : Z)
| ColorString (s : string).

Inductive font : Set :=
| FreeTypeFont (file : string) (size : Z)
| DefaultFont.

Definition point : Set := num * num.

Inductive draw_op : Set :=
| Polygon (xy : list point) (fill : rgba) (outline : color) (width : Z)
| Ellipse (xy : list num) (fill : rgba) (outline : color) (width : Z)
| Rectangle (xy : list num) (fill : rgba) (outline : color) (width : Z)
| Arc (xy : list num) (start stop : Z) (fill : color) (width : Z)
| Line (xy : list num) (fill : color) (width : Z)
| DrawText (xy : point) (s : string) (fill : color) (f : option font).

Record image : Set := Image {
  canvas_mode : string;
  canvas_size : Z * Z;
  canvas_background : rgba;
  canvas_ops : list draw_op
}.

(** [draw.<op>(...)]: the call is appended to the canvas. *)
Definition draw (img : image) (op : draw_op) : image :=
  {| canvas_mode := canvas_mode img; canvas_size := canvas_size img;
     canvas_background := canvas_background img;
     canvas_ops := canvas_ops img ++ [op] |}.

(** ** The file system and the world *)

(** An absolute path as its components, innermost first: ["b"; "a"] is
    [/a/b] and [[]] is the root. *)
Abbreviation apath := (list string).

Inductive content : Set :=
| Text (s : string)            (* decodable text *)
| Picture (img : image).       (* an encoded image; not valid UTF-8 *)

Inductive node : Set :=
| Dir
| File (c : content).

Record world : Type := World {
  fs : gmap apath node;
  stdout : list string
}.

Inductive errno : Set := ENOENT | ENOTDIR | EISDIR.

Inductive exn : Set :=
| OSError (e : errno) (filename : string)
| ResourceError (msg : string)   (* an [OSError] with a message only *)
| UnicodeDecodeError
| ValueError (msg : string).

(** What the process finds around it and never changes: its working
    directory and the fonts PIL can load. *)
Record environment : Type := Environment {
  cwd : apath;
  truetype : string → Z → option font;   (* [ImageFont.truetype]; [None] raises *)
  load_default : option font;             (* [ImageFont.load_default]; [None] raises *)
  textbbox : font → string → num * num * num * num
}.

(** *** The monad of effectful code: world passing with exceptions *)

Definition M (A : Type) : Type := world → (exn + A) * world.

Definition ret {A} (a : A) : M A := λ w, (inr a, w).

Definition bind {A B} (m : M A) (k : A → M B) : M B :=
  λ w, match m w with
       | (inr a, w') => k a w'
       | (inl e, w') => (inl e, w')
       end.

Definition raise {A} (e : exn) : M A := λ w, (inl e, w).

(** [try: body / except Exception as e: handler(e)] *)
Definition try_except {A} (body : M A) (handler : exn → M A) : M A :=
  λ w, match body w with
       | (inr a, w') => (inr a, w')
       | (inl e, w') => handler e w'
       end.

Definition print (s : string) : M unit :=
  λ w, (inr tt, {| fs := fs w; stdout := stdout w ++ [s] |}).

Notation "x <- m ;; k" := (bind m (λ x, k))
  (at level 100, m at next level, k at level 200, right associativity, only parsing).
Notation "m ;;; k" := (bind m (λ _, k))
  (at level 100, k at level 200, right associativity, only parsing).

(** *** Paths and path resolution (POSIX) *)

(** One step of resolution from the directory [cur]. *)
Definition step (cur : apath) (c : string) : apath :=
  if decide (c = "" ∨ c = ".") then cur
  else if decide (c = "..") then tail cur
  else c :: cur.

(** The root always exists and is a directory. *)
Definition node_at (t : gmap apath node) (k : apath) : option node :=
  match k with
  | [] => Some Dir
  | _ => t !! k
  end.

Definition is_dir (t : gmap apath node) (k : apath) : bool :=
  match node_at t k with
  | Some Dir => true
  | _ => false
  end.

(** Follows every component but the last, each of which must lead to a
    directory; answers the directory reached and the last component. *)
Fixpoint walk (t : gmap apath node) (cur : apath) (comps : list string)
  : errno + apath * string :=
  match comps with
  | [] => inl ENOENT
  | [c] => inr (cur, c)
  | c :: rest =>
      match node_at t (step cur c) with
      | Some Dir => walk t (step cur c) rest
      | Some (File _) => inl ENOTDIR
      | None => inl ENOENT
      end
  end.

Section FileSystem.

Variable env : environment.

Definition lookup_parent (t : gmap apath node) (p : string) : errno + apath * string :=
  if negb (str.truthy p) then inl ENOENT
  else
    let start := if str.startswith p "/" then [] else cwd env in
    if is_dir t start then walk t start (str.split "/" p) else inl ENOENT.

(** [os.stat(p)]: the absolute path and the node [p] resolves to. *)
Definition stat (t : gmap apath node) (p : string) : errno + apath * node :=
  match lookup_parent t p with
  | inl e => inl e
  | inr (d, c) =>
      match node_at t (step d c) with
      | Some n => inr (step d c, n)
      | None => inl ENOENT
      end
  end.

(** Where [open(p, "wb")] creates or truncates a file. *)
Definition locate (t : gmap apath node) (p : string) : errno + apath :=
  match lookup_parent t p with
  | inl e => inl e
  | inr (d, name) =>
      if decide (name = "" ∨ name = "." ∨ name = "..") then inl EISDIR
      else match t !! (name :: d) with
           | Some Dir => inl EISDIR
           | _ => inr (name :: d)
           end
  end.

(** [open(p, "wb")] followed by writing [c] and closing. *)
Definition write_file (t : gmap apath node) (p : string) (c : content)
  : errno + gmap apath node :=
  match locate t p with
  | inl e => inl e
  | inr k => inr (<[k := File c]> t)
  end.

(** The entries of the directory [k], in the enumeration order of the map
    (the order of [os.listdir] is arbitrary). *)
Definition children (t : gmap apath node) (k : apath) : list string :=
  omap (λ kn : apath * node,
          match kn.1 with
          | name :: d => if decide (d = k) then Some name else None
          | [] => None
          end) (map_to_list t).

(** [open(p, "r", encoding="utf-8")] and the universal-newline reading of
    all the text. *)
Definition read_text (t : gmap apath node) (p : string) : exn + string :=
  match stat t p with
  | inl e => inl (OSError e p)
  | inr (_, Dir) => inl (OSError EISDIR p)
  | inr (_, File (Picture _)) => inl UnicodeDecodeError
  | inr (_, File (Text s)) => inr s
  end.

End FileSystem.

(** Text mode translates ["\r\n"] and ["\r"] to ["\n"]. *)
Fixpoint universal_newlines (s : string) : string :=
  match s with
  | EmptyString => EmptyString
  | String c s' =>
      if Ascii.eqb c "013" then
        match s' with
        | String "010" _ => universal_newlines s'
        | _ => String "010" (universal_newlines s')
        end
      else String c (universal_newlines s')
  end.

(** Iterating over a text file: each line keeps its terminating ["\n"]. *)
Fixpoint lines (s : string) : list string :=
  match s with
  | EmptyString => []
  | String c s' =>
      if Ascii.eqb c "010" then String c EmptyString :: lines s'
      else match lines s' with
           | [] => [String c EmptyString]
           | l :: ls => String c l :: ls
           end
  end.

(** *** The [os] and [os.path] functions the script calls *)

Module os.
Module path.

(** [os.path.join(a, b)] *)
Definition join (a b : string) : string :=
  if str.startswith b "/" then b
  else if negb (str.truthy a) || str.endswith a "/" then a +:+ b
  else a +:+ "/" +:+ b.

(** [os.path.basename(p)]: what follows the last slash. *)
Definition basename (p : string) : string := default "" (last (str.split "/" p)).

(** The extension [os.path.splitext(p)[1]]: from the last dot of the base
    name, unless only dots come before it. *)
Definition base_extension (b : string) : string :=
  match reverse (str.split "." b) with
  | ext :: before => if existsb str.truthy before then "." +:+ ext else ""
  | [] => ""
  end.

Definition extension (p : string) : string := base_extension (basename p).

(** [os.path.exists(p)]; the name carries an underscore because [exists] is
    reserved. *)
Definition exists_ (env : environment) (p : string) : M bool :=
  λ w, (inr match stat env (fs w) p with
            | inr _ => true
            | inl _ => false
            end, w).

(** [os.path.isdir(p)] *)
Definition isdir (env : environment) (p : string) : M bool :=
  λ w, (inr match stat env (fs w) p with
            | inr (_, Dir) => true
            | _ => false
            end, w).

(** [os.path.abspath(p)]: the normalised path below the working directory. *)
Definition abspath (env : environment) (p : string) : M string :=
  let start := if str.startswith p "/" then [] else cwd env in
  ret ("/" +:+ str.join "/" (reverse (foldl step start (str.split "/" p)))).

End path.

(** [os.listdir(p)] *)
Definition listdir (env : environment) (p : string) : M (list string) :=
  λ w, match stat env (fs w) p with
       | inr (k, Dir) => (inr (children (fs w) k), w)
       | inr (_, File _) => (inl (OSError ENOTDIR p), w)
       | inl e => (inl (OSError e p), w)
       end.

End os.

(** [open(p, 'r', encoding='utf-8')] and the list comprehension over its
    lines are modelled together by [read_text] and [lines]. *)
Definition open_read (env : environment) (p : string) : M (list string) :=
  λ w, match read_text env (fs w) p with
       | inr s => (inr (lines (universal_newlines s)), w)
       | inl e => (inl e, w)
       end.

(** [img.save(filename)]: PIL chooses the encoder from the lower-cased
    extension and raises [ValueError] for one it does not know; only the PNG
    encoder is modelled, the only one a path ending in [.png] can select. *)
Definition save (env : environment) (img : image) (filename : string) : M unit :=
  let ext := str.lower (os.path.extension filename) in
  if decide (ext = ".png") then
    λ w, match write_file env (fs w) filename (Picture img) with
         | inr t => (inr tt, {| fs := t; stdout := stdout w |})
         | inl e => (inl (OSError e filename), w)
         end
  else raise (ValueError ("unknown file extension: " +:+ ext)).

(** [str(e)] for the exceptions of the model ([repr] of a file name is taken
    to be the name between single quotes). *)
Definition strerror (e : errno) : string :=
  match e with
  | ENOENT => "[Errno 2] No such file or directory"
  | ENOTDIR => "[Errno 20] Not a directory"
  | EISDIR => "[Errno 21] Is a directory"
  end.

Definition exn_str (e : exn) : string :=
  match e with
  | OSError e filename => strerror e +:+ ": '" +:+ filename +:+ "'"
  | ResourceError msg => msg
  | UnicodeDecodeError => "'utf-8' codec can't decode byte"
  | ValueError msg => msg
  end.

(** [ImageFont.truetype(file, size)] and [ImageFont.load_default()] *)
Module ImageFont.

Definition truetype (env : environment) (file : string) (size : Z) : M font :=
  match truetype env file size with
  | Some f => ret f
  | None => raise (ResourceError "cannot open resource")
  end.

Definition load_default (env : environment) : M font :=
  match load_default env with
  | Some f => ret f
  | None => raise (ResourceError "cannot open resource")
  end.

End ImageFont.

(** ** The script *)

(** *** Configuration *)

Definition ICON_SIZE : Z * Z := (64, 64).
Definition ICONS_DIR : string := "icons-pathfinding".

(** Category definitions: colour (hex), shape, symbol code. *)
Definition CATEGORY_STYLES : gmap string (string * string * string) :=
  list_to_map [
    ("enemies-arcs", ("#ef5350", "diamond", "ARC"));
    ("extraction", ("#26c6da", "arrow_up", "EXIT"));
    ("spawn", ("#ffffff", "arrow_down", "DROP"));
    ("locked-rooms", ("#fbc02d", "padlock", "LOCK"));
    ("objectives", ("#ffeb3b", "star", "OBJ"));
    ("loot-containers", ("#e0e0e0", "box", "LOOT"));
    ("supply-stations", ("#bdbdbd", "radio", "SUP"));
    ("resources-plants", ("#66bb6a", "leaf", "BIO"));
    ("other", ("#9e9e9e", "circle", "???"))
  ].

(** *** [draw_icon] *)

Local Open Scope py_scope.

(** One vertex of the star: the body of the loop over [i]. *)
Definition star_point (w p cx cy : num) (i : Z) : point :=
  let angle := Int i * Float 3.14159 / 5 in
  let r := if (i mod 2 =? 0)%Z then w / 2 - p else w / 2 - p - 8 in
  (cx + r * Float 0.8 * (if (i mod 2 =? 0)%Z then Int 1 else Float 0.5)
        * (if (i <? 5)%Z then Int 1 else Int (-1)),
   cy + r * Float 0.8 * (if (i mod 2 =? 0)%Z then Int 1 else Float 0.5)
        * (if (i <? 5)%Z then Int 1 else Int (-1))).

Definition star_points (w p cx cy : num) : list point :=
  foldl (λ points i, points ++ [star_point w p cx cy i]) [] (range 10).

(** The shape dispatch of [draw_icon]. *)
Definition draw_shape (img : image) (color : color) (shape : string) : image :=
  let '(w, h) := (Int (fst ICON_SIZE), Int (snd ICON_SIZE)) in
  let p : num := 4 in
  let bg_color : rgba := (20, 20, 20, 230)%Z in
  let cx := w / 2 in
  let cy := h / 2 in
  if decide (shape = "diamond") then
    let coords := [(cx, p); (w - p, cy); (cx, h - p); (p, cy)] in
    draw img (Polygon coords bg_color color 3)
  else if decide (shape = "circle") then
    draw img (Ellipse [p; p; w - p; h - p] bg_color color 3)
  else if decide (shape = "box") then
    draw img (Rectangle [p + 4; p + 4; w - p - 4; h - p - 4] bg_color color 3)
  else if decide (shape = "arrow_up") then
    let coords := [(cx, p); (w - p, cy); (cx + 10, cy); (cx + 10, h - p);
                   (cx - 10, h - p); (cx - 10, cy); (p, cy)] in
    draw img (Polygon coords bg_color color 3)
  else if decide (shape = "arrow_down") then
    let coords := [(cx, h - p); (w - p, cy); (cx + 10, cy); (cx + 10, p);
                   (cx - 10, p); (cx - 10, cy); (p, cy)] in
    draw img (Polygon coords bg_color color 3)
  else if decide (shape = "padlock") then
    let img := draw img (Rectangle [cx - 12; cy - 8; cx + 12; cy + 8] bg_color color 3) in
    draw img (Arc [cx - 12; cy - 16; cx + 12; cy] 0 180 color 3)
  else if decide (shape = "star") then
    let points := star_points w p cx cy in
    if (3 <=? length points)%nat then draw img (Polygon points bg_color color 2)
    else img
  else if decide (shape = "radio") then
    let img := draw img (Rectangle [cx - 10; cy - 6; cx + 10; cy + 6] bg_color color 3) in
    let img := draw img (Line [cx; cy - 6; cx; cy - 12] color 2) in
    draw img (Line [cx - 4; cy - 12; cx + 4; cy - 12] color 2)
  else if decide (shape = "leaf") then
    let img := draw img (Ellipse [cx - 10; cy - 8; cx + 10; cy + 8] bg_color color 3) in
    draw img (Line [cx; cy - 8; cx; cy + 8] color 2)
  else
    draw img (Rectangle [p; p; w - p; h - p] bg_color color 3).

(** The text label of [draw_icon], drawn with the font that could be loaded. *)
Definition draw_label (env : environment) (img : image) (color : color)
    (text : string) (font : option font) : image :=
  let '(w, h) := (Int (fst ICON_SIZE), Int (snd ICON_SIZE)) in
  let cx := w / 2 in
  let cy := h / 2 in
  match font with
  | Some f =>
      let '(x0, y0, x1, y1) := textbbox env f (str.slice text 0 3) in
      let text_width := x1 - x0 in
      let text_height := y1 - y0 in
      draw img (DrawText (cx - text_width / 2, cy - text_height / 2)
                     (str.slice text 0 3) color (Some f))
  | None =>
      draw img (DrawText (cx - 12, cy - 6) (str.slice text 0 3) color None)
  end.

Local Close Scope py_scope.

(** Generate a single icon with the specified style. *)
Definition draw_icon (env : environment)
    (category : string) (color : color) (shape text output_path : string) : M string :=
  let img := Image "RGBA" ICON_SIZE (0, 0, 0, 0) [] in
  let img := draw_shape img color shape in
  font <- try_except (f <- ImageFont.truetype env "arial.ttf" 10;; ret (Some f))
            (λ _, try_except (f <- ImageFont.load_default env;; ret (Some f))
                    (λ _, ret None));;
  let img := draw_label env img color text font in
  save env img output_path;;;
  ret output_path.

(** *** [hex_to_rgb] *)

Definition hex_digit (c : ascii) : option Z :=
  let n := nat_of_ascii c in
  if ((48 <=? n)%nat && (n <=? 57)%nat)%bool then Some (Z.of_nat n - 48)
  else if ((97 <=? n)%nat && (n <=? 102)%nat)%bool then Some (Z.of_nat n - 87)
  else if ((65 <=? n)%nat && (n <=? 70)%nat)%bool then Some (Z.of_nat n - 55)
  else None.

Fixpoint hex_value (acc : Z) (s : string) : option Z :=
  match s with
  | EmptyString => Some acc
  | String c s' =>
      match hex_digit c with
      | Some d => hex_value (16 * acc + d) s'
      | None => None
      end
  end.

(** [int(s, 16)] on a string of hexadecimal digits; the signs, blanks,
    underscores and [0x] prefix that Python also accepts do not occur in the
    style table and raise here. *)
Definition int16 (s : string) : M Z :=
  match (if str.truthy s then hex_value 0 s else None) with
  | Some z => ret z
  | None => raise (ValueError ("invalid literal for int() with base 16: '" +:+ s +:+ "'"))
  end.

(** Convert hex color to RGB tuple. *)
Definition hex_to_rgb (hex_color : string) : M color :=
  let hex_color := str.lstrip hex_color "#" in
  r <- int16 (str.slice hex_color 0 2);;
  g <- int16 (str.slice hex_color 2 4);;
  b <- int16 (str.slice hex_color 4 6);;
  ret (ColorTuple r g b).

(** *** [generate_icons_for_category] *)

(** The style selection that opens [generate_icons_for_category]. *)
Definition category_style (category_name : string) : M (color * string * string) :=
  match CATEGORY_STYLES !! category_name with
  | None =>
      print ("⚠️  Unknown category: " +:+ category_name +:+ ", using default style");;;
      ret (ColorString "#9e9e9e", "circle", "???")
  | Some (color_hex, shape, text) =>
      color <- hex_to_rgb color_hex;;
      ret (color, shape, text)
  end.

(** The destination of one manifest entry. *)
Definition output_path_of (category_folder icon_name : string) : string :=
  let icon_name := str.replace icon_name ".png" "" in
  os.path.join category_folder (icon_name +:+ ".png").

(** The loop over [icon_names], with [generated_count] as accumulator. *)
Fixpoint generate_loop (env : environment) (category_folder category_name : string)
    (color : color) (shape text : string)
    (icon_names : list string) (generated_count : Z) : M Z :=
  match icon_names with
  | [] => ret generated_count
  | icon_name :: rest =>
      (* Remove .png extension if present *)
      let icon_name := str.replace icon_name ".png" "" in
      (* Create output path *)
      let output_path := os.path.join category_folder (icon_name +:+ ".png") in
      (* Skip if already exists *)
      found <- os.path.exists_ env output_path;;
      if found : bool then
        generate_loop env category_folder category_name color shape text rest generated_count
      else
        generated_count <-
          try_except
            (draw_icon env category_name color shape text output_path;;;
             ret (generated_count + 1))
            (λ e, print ("❌ Error generating " +:+ icon_name +:+ ": " +:+ exn_str e);;;
                  ret generated_count);;
        generate_loop env category_folder category_name color shape text rest generated_count
  end.

(** Generate icons for all locations in a category folder. *)
Definition generate_icons_for_category (env : environment) (category_folder : string) : M Z :=
  let category_name := os.path.basename category_folder in
  style <- category_style category_name;;
  let '(color, shape, text) := style in
  let icon_names_file := os.path.join category_folder "icon-names.txt" in
  found <- os.path.exists_ env icon_names_file;;
  if negb found then
    print ("⚠️  No icon-names.txt found in " +:+ category_folder);;;
    ret 0
  else
    (* Read icon names *)
    all_lines <- open_read env icon_names_file;;
    let icon_names := str.strip <$> filter (λ line, str.truthy (str.strip line) = true) all_lines in
    generate_loop env category_folder category_name color shape text icon_names 0.

(** *** [main] *)

(** The loop over [os.listdir(ICONS_DIR)], with the two counters. *)
Fixpoint main_loop (env : environment) (items : list string)
    (total_generated categories_processed : Z) : M (Z * Z) :=
  match items with
  | [] => ret (total_generated, categories_processed)
  | item :: rest =>
      let category_path := os.path.join ICONS_DIR item in
      is_directory <- os.path.isdir env category_path;;
      if is_directory : bool then
        print (String "010" "📁 Processing " +:+ item +:+ "/...");;;
        count <- generate_icons_for_category env category_path;;
        let total_generated := total_generated + count in
        let categories_processed := categories_processed + 1 in
        (if 0 <? count
         then print ("   ✅ Generated " +:+ str.of_int count +:+ " new icon(s)")
         else print "   ℹ️  All icons already exist or none to generate");;;
        main_loop env rest total_generated categories_processed
      else
        main_loop env rest total_generated categories_processed
  end.

(** Main function to generate all icons. *)
Definition main (env : environment) : M unit :=
  found <- os.path.exists_ env ICONS_DIR;;
  if negb found then
    print ("❌ Icons directory not found: " +:+ ICONS_DIR);;;
    print "   Please run reorganize-icons.cjs first to create the folder structure";;;
    ret tt
  else
    print ("🎨 Generating location icons from API data..." +:+ String "010" "");;;
    print (str.repeat "=" 70);;;
    items <- os.listdir env ICONS_DIR;;
    counters <- main_loop env items 0 0;;
    let '(total_generated, categories_processed) := counters in
    print (String "010" "" +:+ str.repeat "=" 70);;;
    print ("✨ Complete! Generated " +:+ str.of_int total_generated +:+ " icon(s) across "
           +:+ str.of_int categories_processed +:+ " categories");;;
    dir <- os.path.abspath env ICONS_DIR;;
    print ("📂 Icons directory: " +:+ dir);;;
    print (str.repeat "=" 70).

(** ** Notions used by the statements *)

(** The font [draw_icon] ends up with: Arial if it loads, else the default
    font if it loads, else none. *)
Definition available_font (env : environment) : option font :=
  match truetype env "arial.ttf" 10 with
  | Some f => Some f
  | None => load_default env
  end.

(** The canvas [draw_icon] hands to [save]. *)
Definition icon_image (env : environment) (color : color) (shape text : string) : image :=
  draw_label env (draw_shape (Image "RGBA" ICON_SIZE (0, 0, 0, 0) []) color shape)
             color text (available_font env).

(** The icon names the processor reads from the text of a manifest. *)
Definition manifest_names (s : string) : list string :=
  str.strip <$> filter (λ line, str.truthy (str.strip line) = true)
                       (lines (universal_newlines s)).

(** [p] exists in [t]. *)
Definition present (env : environment) (t : gmap apath node) (p : string) : Prop :=
  ∃ r, stat env t p = inr r.

(** A name [save] can give to a new file: one component, no dot entry, with
    the extension of the PNG encoder. *)
Definition icon_file_name (name : string) : Prop :=
  str.split "/" name = [name] ∧
  ¬ (name = "" ∨ name = "." ∨ name = "..") ∧
  str.lower (os.path.base_extension name) = ".png".

(** [t'] has everything [t] has, unchanged, and what it has more are image
    files satisfying [P]. *)
Definition grows (P : image → Prop) (t t' : gmap apath node) : Prop :=
  (∀ k n, t !! k = Some n → t' !! k = Some n) ∧
  (∀ k, t !! k = None → is_Some (t' !! k) →
        ∃ name d img, k = name :: d ∧ icon_file_name name ∧
                      t' !! k = Some (File (Picture img)) ∧ P img).

(** Nothing is left to do for the destination [p]: it exists, or saving to
    it raises. *)
Definition settled (env : environment) (t : gmap apath node) (p : string) : Prop :=
  present env t p ∨
  str.lower (os.path.extension p) ≠ ".png" ∨
  (∃ e, locate env t p = inl e).

(** Nothing is left to do in a category folder: it has no manifest, or its
    manifest is readable and every entry is settled. *)
Definition category_settled (env : environment) (t : gmap apath node)
    (category_folder : string) : Prop :=
  ¬ present env t (os.path.join category_folder "icon-names.txt") ∨
  ∃ s, read_text env t (os.path.join category_folder "icon-names.txt") = inr s ∧
       ∀ icon_name, icon_name ∈ manifest_names s →
                    settled env t (output_path_of category_folder icon_name).


(** The world after [print]ing the lines [out]. *)
Definition printed (w : world) (out : list string) : world :=
  {| fs := fs w; stdout := stdout w ++ out |}.

(** What [save] does with the destination [p]: the file it creates or
    truncates, or the exception it raises. *)
Definition save_outcome (env : environment) (t : gmap apath node) (p : string) : exn + apath :=
  if decide (str.lower (os.path.extension p) = ".png") then
    match locate env t p with
    | inr k => inr k
    | inl e => inl (OSError e p)
    end
  else inl (ValueError ("unknown file extension: " +:+ str.lower (os.path.extension p))).

(** The line printed for an icon that could not be generated. *)
Definition error_line (icon_name : string) (e : exn) : string :=
  "❌ Error generating " +:+ icon_name +:+ ": " +:+ exn_str e.

(** [p] is a directory of [t]. *)
Definition directory (env : environment) (t : gmap apath node) (p : string) : Prop :=
  ∃ k, stat env t p = inr (k, Dir).

(** The lines [main] prints before and after the loop. *)
Definition header : list string :=
  ["🎨 Generating location icons from API data..." +:+ String "010" "";
   str.repeat "=" 70].

Definition summary_line (total_generated categories_processed : Z) : string :=
  "✨ Complete! Generated " +:+ str.of_int total_generated +:+ " icon(s) across "
  +:+ str.of_int categories_processed +:+ " categories".

Definition footer (env : environment) (total_generated categories_processed : Z) : list string :=
  [String "010" "" +:+ str.repeat "=" 70;
   summary_line total_generated categories_processed;
   "📂 Icons directory: " +:+
     "/" +:+ str.join "/" (reverse (foldl step (cwd env) (str.split "/" ICONS_DIR)));
   str.repeat "=" 70].

(** The line that closes the processing of one category. *)
Definition count_line (count : Z) : string :=
  if 0 <? count then "   ✅ Generated " +:+ str.of_int count +:+ " new icon(s)"
  else "   ℹ️  All icons already exist or none to generate".

(** The warning printed for a folder whose name is not in the style table. *)
Definition unknown_warning (category_name : string) : list string :=
  match CATEGORY_STYLES !! category_name with
  | None => ["⚠️  Unknown category: " +:+ category_name +:+ ", using default style"]
  | Some _ => []
  end.

(** ** A sample installation, used by the examples *)

Definition sample_env : environment :=
  {| cwd := ["project"];
     truetype := λ _ _, None;
     load_default := Some DefaultFont;
     textbbox := λ _ s, (Int 0, Int 0, Int (6 * Z.of_nat (String.length s)), Int 11) |}.

(** The project directory with the category [objectives], whose manifest
    holds [manifest], the category [unknown-cat] with the single entry
    [gamma], and the category [empty] without a manifest. *)
Definition sample_world (manifest : string) : world :=
  {| fs := list_to_map [
       (["project"], Dir);
       (["icons-pathfinding"; "project"], Dir);
       (["objectives"; "icons-pathfinding"; "project"], Dir);
       (["icon-names.txt"; "objectives"; "icons-pathfinding"; "project"],
        File (Text manifest));
       (["unknown-cat"; "icons-pathfinding"; "project"], Dir);
       (["icon-names.txt"; "unknown-cat"; "icons-pathfinding"; "project"],
        File (Text "gamma"));
       (["empty"; "icons-pathfinding"; "project"], Dir)
     ];
     stdout := [] |}.

(** A world in which nothing has been set up. *)
Definition bare_world : world :=
  {| fs := {[ ["project"] := Dir ]}; stdout := [] |}.

Definition end_to_end_manifest : string :=
  "alpha" +:+ String "010" "beta.png" +:+ String "010" "".

(** The canvas before any shape is drawn. *)
Definition blank : image := Image "RGBA" ICON_SIZE (0, 0, 0, 0) [].

(** The vertices of the polygon drawn for the shape ["star"]. *)
Definition star_vertices : list point :=
  star_points (Int 64) (Int 4) (num.truediv (Int 64) (Int 2)) (num.truediv (Int 64) (Int 2)).

(** Three points lie on one line: the cross product of [b - a] and [c - a]
    is zero. *)
Definition collinear (a b c : point) : bool :=
  PrimFloat.eqb
    (num.to_float
       (num.sub (num.mul (num.sub b.1 a.1) (num.sub c.2 a.2))
                (num.mul (num.sub b.2 a.2) (num.sub c.1 a.1))))
    0%float.

(** The coordinates a drawing call is given. *)
Definition op_coords (op : draw_op) : list num :=
  match op with
  | Polygon xy _ _ _ => flat_map (λ v : point, [v.1; v.2]) xy
  | Ellipse xy _ _ _ | Rectangle xy _ _ _ | Arc xy _ _ _ _ | Line xy _ _ => xy
  | DrawText xy _ _ _ => [xy.1; xy.2]
  end.

(** A coordinate that keeps the padding of 4 pixels on the 64-pixel canvas. *)
Definition within_padding (n : num) : bool :=
  PrimFloat.leb 4 (num.to_float n) && PrimFloat.leb (num.to_float n) 60.

(** The shape names [draw_icon] knows. *)
Definition known_shapes : list string :=
  ["diamond"; "circle"; "box"; "arrow_up"; "arrow_down"; "padlock"; "star"; "radio"; "leaf"].

(** The sample installation with a text file at [icons-pathfinding/old.png]. *)
Definition stale_world : world :=
  {| fs := <[ ["old.png"; "icons-pathfinding"; "project"] := File (Text "stale") ]>
             (fs (sample_world ""));
     stdout := [] |}.

(** The sample installation in which the manifest of [objectives] is a
    directory. *)
Definition broken_world : world :=
  {| fs := <[ ["icon-names.txt"; "objectives"; "icons-pathfinding"; "project"] := Dir ]>
             (fs (sample_world ""));
     stdout := [] |}.

(** The test [os.path.isdir] makes, as a function of the file system. *)
Definition is_directory (env : environment) (t : gmap apath node) (p : string) : bool :=
  match stat env t p with
  | inr (_, Dir) => true
  | _ => false
  end.

(** The manifest of a folder is absent or is a readable text file. *)
Definition manifest_usable (env : environment) (t : gmap apath node)
    (category_folder : string) : Prop :=
  ¬ present env t (os.path.join category_folder "icon-names.txt") ∨
  ∃ s, read_text env t (os.path.join category_folder "icon-names.txt") = inr s.

(** The sample installation with a regular file in the place of the root
    directory. *)
Definition file_root_world : world :=
  {| fs := {[ ["project"] := Dir;
              ["icons-pathfinding"; "project"] := File (Text "not a folder") ]};
     stdout := [] |}.
Example replace_twice : str.replace "a.png.png" ".png" "" = "a".
Proof. reflexivity. Qed.

Example replace_rescan : str.replace "..pngpng" ".png" "" = ".png".
Proof. reflexivity. Qed.

Example strip_both : str.strip (String "009" " foo bar " +:+ String "010" "") = "foo bar".
Proof. reflexivity. Qed.

Example split_abs : str.split "/" "/a//b" = [""; "a"; ""; "b"].
Proof. reflexivity. Qed.

Example of_int_12 : str.of_int 12 = "12" ∧ str.of_int 0 = "0".
Proof. split; reflexivity. Qed.

(** ** Facts on strings and paths *)

Lemma split_cons sep s : ∃ x xs, str.split sep s = x :: xs.
Proof.
  destruct s as [|c s]; simpl; [by eauto|].
  destruct (Ascii.eqb c sep); [by eauto|].
  destruct (str.split sep s); eauto.
Qed.

Lemma split_app_sep sep a b :
  str.split sep (a +:+ String sep b) = str.split sep a ++ str.split sep b.
Proof.
  induction a as [|c a IH]; simpl.
  - by rewrite Ascii.eqb_refl.
  - destruct (Ascii.eqb c sep); [by rewrite IH|].
    rewrite IH. by destruct (split_cons sep a) as (x & xs & ->).
Qed.

Lemma split_component sep s c : c ∈ str.split sep s → str.split sep c = [c].
Proof.
  revert c. induction s as [|a s IH]; intros c; simpl.
  - intros ->%list_elem_of_singleton. done.
  - destruct (Ascii.eqb a sep) eqn:Ha.
    + intros [->|?]%elem_of_cons; [done|]. by apply IH.
    + destruct (split_cons sep s) as (x & xs & Hs). rewrite Hs in IH |- *.
      intros [->|?]%elem_of_cons.
      * simpl. rewrite Ha, (IH x); [done|]. by left.
      * apply IH. by right.
Qed.

Lemma endswith_sep s c :
  str.endswith s (String c "") = true → ∃ s', s = s' +:+ String c "".
Proof.
  induction s as [|a s IH]; [done|]. intros H.
  change (String.eqb (String a s) (String c "") || str.endswith s (String c "") = true) in H.
  apply orb_true_iff in H as [H|H].
  - apply String.eqb_eq in H as ->. by exists "".
  - destruct (IH H) as [s' ->]. by exists (String a s').
Qed.

Lemma app_assoc_sep a c b : (a +:+ String c "") +:+ b = a +:+ String c b.
Proof.
  induction a as [|x a IH]; [done|].
  change (String x ((a +:+ String c "") +:+ b) = String x (a +:+ String c b)).
  by rewrite IH.
Qed.

Lemma walk_last t cur comps d c :
  walk t cur comps = inr (d, c) → last comps = Some c.
Proof.
  revert cur. induction comps as [|x [|y comps] IH]; intros cur; simpl; [done|congruence|].
  destruct (node_at t (step cur x)) as [[|?]|]; try done. apply IH.
Qed.

Lemma lookup_parent_last env t p d c :
  lookup_parent env t p = inr (d, c) → os.path.basename p = c.
Proof.
  unfold lookup_parent, os.path.basename.
  destruct (negb _); [done|]. destruct (is_dir _ _); [|done].
  by intros ->%walk_last.
Qed.

Lemma lookup_parent_component env t p d c :
  lookup_parent env t p = inr (d, c) → str.split "/" c = [c].
Proof.
  unfold lookup_parent.
  destruct (negb _); [done|]. destruct (is_dir _ _); [|done].
  intros H%walk_last. apply (split_component "/" p).
  apply list_elem_of_lookup. exists (Nat.pred (length (str.split "/" p))).
  by rewrite <- last_lookup.
Qed.

Lemma step_name d name :
  ¬ (name = "" ∨ name = "." ∨ name = "..") → step d name = name :: d.
Proof.
  intros H. unfold step.
  destruct (decide (name = "" ∨ name = ".")) as [[?|?]|?]; [tauto..|].
  destruct (decide (name = "..")); [tauto|done].
Qed.

(** ** The file system only grows *)

Section Grows.

Variable env : environment.
Variable P : image → Prop.

Lemma grows_refl t : grows P t t.
Proof. split; [done|]. intros k -> [? ?]. done. Qed.

Lemma grows_trans t1 t2 t3 : grows P t1 t2 → grows P t2 t3 → grows P t1 t3.
Proof.
  intros [H1 N1] [H2 N2]. split; [by eauto|].
  intros k Hk Hs. destruct (t2 !! k) as [n|] eqn:E2; [|by eauto].
  destruct (N1 k Hk) as (name & d & img & -> & ? & E & ?); [by eauto|].
  exists name, d, img. eauto.
Qed.

Lemma grows_node_at t t' k n :
  grows P t t' → node_at t k = Some n → node_at t' k = Some n.
Proof. intros [H _]. destruct k; simpl; eauto. Qed.

Lemma grows_dir t t' k :
  grows P t t' → node_at t' k = Some Dir → node_at t k = Some Dir.
Proof.
  intros [H N]. destruct k as [|c k]; simpl; [done|]. intros E.
  destruct (t !! (c :: k)) as [n|] eqn:E1.
  - pose proof (H _ _ E1). congruence.
  - destruct (N (c :: k) E1) as (? & ? & ? & _ & _ & E' & _); [by eauto|congruence].
Qed.

Lemma grows_is_dir t t' k : grows P t t' → is_dir t' k = is_dir t k.
Proof.
  intros G. unfold is_dir.
  destruct (node_at t k) as [[|c]|] eqn:E.
  - by rewrite (grows_node_at _ _ _ _ G E).
  - by rewrite (grows_node_at _ _ _ _ G E).
  - destruct (node_at t' k) as [[|c]|] eqn:E'; try done.
    apply (grows_dir _ _ _ G) in E'. congruence.
Qed.

Lemma grows_walk t t' cur comps r :
  grows P t t' → walk t' cur comps = inr r ↔ walk t cur comps = inr r.
Proof.
  intros G. revert cur. induction comps as [|x [|y comps] IH]; intros cur; [done..|].
  change (walk t' cur (x :: y :: comps)) with
    (match node_at t' (step cur x) with
     | Some Dir => walk t' (step cur x) (y :: comps)
     | Some (File _) => inl ENOTDIR
     | None => inl ENOENT
     end).
  change (walk t cur (x :: y :: comps)) with
    (match node_at t (step cur x) with
     | Some Dir => walk t (step cur x) (y :: comps)
     | Some (File _) => inl ENOTDIR
     | None => inl ENOENT
     end).
  pose proof (grows_is_dir _ _ (step cur x) G) as D. unfold is_dir in D.
  destruct (node_at t' (step cur x)) as [[|?]|], (node_at t (step cur x)) as [[|?]|];
    try done; apply IH.
Qed.

Lemma grows_lookup_parent t t' p r :
  grows P t t' → lookup_parent env t' p = inr r ↔ lookup_parent env t p = inr r.
Proof.
  intros G. unfold lookup_parent. destruct (negb _); [done|].
  rewrite (grows_is_dir _ _ _ G). destruct (is_dir _ _); [|done].
  by apply grows_walk.
Qed.

Lemma grows_stat t t' p r :
  grows P t t' → stat env t p = inr r → stat env t' p = inr r.
Proof.
  intros G. unfold stat.
  destruct (lookup_parent env t p) as [e|[d c]] eqn:E; [done|].
  apply (grows_lookup_parent _ _ _ _ G) in E. rewrite E.
  destruct (node_at t (step d c)) as [n|] eqn:En; [|done].
  by rewrite (grows_node_at _ _ _ _ G En).
Qed.

Lemma grows_present t t' p : grows P t t' → present env t p → present env t' p.
Proof. intros G [r H]. exists r. by eapply grows_stat. Qed.

Lemma grows_stat_dir t t' p k :
  grows P t t' → stat env t' p = inr (k, Dir) → stat env t p = inr (k, Dir).
Proof.
  intros G. unfold stat.
  destruct (lookup_parent env t' p) as [e|[d c]] eqn:E; [done|].
  apply (grows_lookup_parent _ _ _ _ G) in E. rewrite E.
  destruct (node_at t' (step d c)) as [n|] eqn:En; [|done].
  intros [= <- ->]. by rewrite (grows_dir _ _ _ G En).
Qed.

Lemma grows_locate_error t t' p e :
  grows P t t' → locate env t p = inl e → ∃ e', locate env t' p = inl e'.
Proof.
  intros G. unfold locate.
  destruct (lookup_parent env t' p) as [e'|[d c]] eqn:E; [by eauto|].
  apply (grows_lookup_parent _ _ _ _ G) in E. rewrite E.
  case_decide; [by eauto|].
  destruct (t !! (c :: d)) as [[|?]|] eqn:En; try done.
  destruct G as [G _]. rewrite (G _ _ En). eauto.
Qed.

Lemma grows_settled t t' p : grows P t t' → settled env t p → settled env t' p.
Proof.
  intros G [H|[H|[e H]]].
  - left. by eapply grows_present.
  - right. by left.
  - right. right. by eapply grows_locate_error.
Qed.

End Grows.

(** ** One call of [save] and of [draw_icon] *)

Section Steps.

Variable env : environment.

Lemma printed_printed w a b : printed (printed w a) b = printed w (a ++ b).
Proof. unfold printed; simpl. by rewrite <- app_assoc. Qed.

Lemma printed_nil w : printed w [] = w.
Proof. destruct w. unfold printed; simpl. by rewrite app_nil_r. Qed.

Lemma save_run img p w :
  save env img p w =
  match save_outcome env (fs w) p with
  | inr k => (inr tt, {| fs := <[k := File (Picture img)]> (fs w); stdout := stdout w |})
  | inl e => (inl e, w)
  end.
Proof.
  unfold save, save_outcome, write_file.
  destruct (decide (str.lower (os.path.extension p) = ".png")); [|done].
  by destruct (locate env (fs w) p).
Qed.

Lemma draw_icon_run category color shape text p w :
  draw_icon env category color shape text p w =
  match save_outcome env (fs w) p with
  | inr k => (inr p, {| fs := <[k := File (Picture (icon_image env color shape text))]> (fs w);
                        stdout := stdout w |})
  | inl e => (inl e, w)
  end.
Proof.
  unfold draw_icon, icon_image, available_font, bind, try_except,
    ImageFont.truetype, ImageFont.load_default, ret, raise.
  destruct (truetype env "arial.ttf" 10); [|destruct (load_default env)];
    rewrite save_run; by destruct (save_outcome env (fs w) p).
Qed.

Lemma exists_run p w :
  os.path.exists_ env p w =
  (inr (if stat env (fs w) p is inr _ then true else false), w).
Proof. unfold os.path.exists_. by destruct (stat env (fs w) p). Qed.

Lemma not_present_stat t p : ¬ present env t p → ∃ e, stat env t p = inl e.
Proof. intros H. destruct (stat env t p) as [e|r] eqn:E; [by eauto|]. destruct H. by exists r. Qed.

(** A successful [save] to a path that does not exist adds one image file
    and changes nothing else. *)
Lemma save_outcome_grows (P : image → Prop) t p k img :
  ¬ present env t p → save_outcome env t p = inr k → P img →
  t !! k = None ∧
  grows P t (<[k := File (Picture img)]> t) ∧
  stat env (<[k := File (Picture img)]> t) p = inr (k, File (Picture img)).
Proof.
  intros [e Hst]%not_present_stat Hs HP. unfold save_outcome in Hs.
  destruct (decide (str.lower (os.path.extension p) = ".png")) as [Hext|]; [|done].
  destruct (locate env t p) as [|k'] eqn:Hl; [done|]. injection Hs as ->.
  unfold locate in Hl. destruct (lookup_parent env t p) as [|[d name]] eqn:Hp; [done|].
  destruct (decide (name = "" ∨ name = "." ∨ name = "..")) as [|Hname]; [done|].
  assert (t !! (name :: d) = None) as Hk.
  { unfold stat in Hst. rewrite Hp, (step_name _ _ Hname) in Hst. simpl in Hst.
    by destruct (t !! (name :: d)). }
  rewrite Hk in Hl. injection Hl as <-.
  assert (grows P t (<[name :: d := File (Picture img)]> t)) as G.
  { split.
    - intros k' n Hn. rewrite lookup_insert_ne; [done|]. congruence.
    - intros k' Hn Hs. destruct (decide (name :: d = k')) as [<-|Hne].
      + exists name, d, img. rewrite lookup_insert_eq. repeat split; try done.
        * by eapply lookup_parent_component.
        * unfold os.path.extension in Hext. by rewrite (lookup_parent_last _ _ _ _ _ Hp) in Hext.
      + rewrite lookup_insert_ne, Hn in Hs; [|done]. by destruct Hs. }
  split; [done|]. split; [exact G|].
  unfold stat. apply (grows_lookup_parent env P _ _ _ _ G) in Hp. rewrite Hp.
  rewrite (step_name _ _ Hname). simpl. by rewrite lookup_insert_eq.
Qed.

End Steps.

(** ** The loop of the category processor *)

Section Loop.

Variable env : environment.
Variables (category_folder category_name : string) (color : color) (shape text : string).

Local Abbreviation loop := (generate_loop env category_folder category_name color shape text).
Local Abbreviation icon := (icon_image env color shape text).

(** One iteration, by cases on the destination. *)
Lemma generate_loop_cons icon_name rest count w :
  loop (icon_name :: rest) count w =
  match stat env (fs w) (output_path_of category_folder icon_name) with
  | inr _ => loop rest count w
  | inl _ =>
      match save_outcome env (fs w) (output_path_of category_folder icon_name) with
      | inr k => loop rest (count + 1)
                   {| fs := <[k := File (Picture icon)]> (fs w); stdout := stdout w |}
      | inl e => loop rest count
                   (printed w [error_line (str.replace icon_name ".png" "") e])
      end
  end.
Proof.
  cbn [generate_loop]. unfold bind at 1. rewrite exists_run.
  fold (output_path_of category_folder icon_name).
  destruct (stat env (fs w) _); [|done].
  unfold bind at 1, try_except, bind at 1. rewrite draw_icon_run.
  by destruct (save_outcome env (fs w) _).
Qed.

(** The loop never raises; it only adds image files, it counts one for each
    file it adds, and it leaves every entry settled. *)
Lemma generate_loop_spec icon_names : ∀ count w,
  ∃ total out t',
    loop icon_names count w = (inr total, {| fs := t'; stdout := stdout w ++ out |}) ∧
    count ≤ total ≤ count + Z.of_nat (length icon_names) ∧
    grows (λ img, img = icon) (fs w) t' ∧
    ∀ icon_name, icon_name ∈ icon_names →
                 settled env t' (output_path_of category_folder icon_name).
Proof.
  induction icon_names as [|icon_name rest IH]; intros count w.
  - exists count, [], (fs w). simpl. rewrite app_nil_r. destruct w; simpl.
    split; [done|]. split; [lia|]. split; [apply grows_refl|]. by intros ? ?%elem_of_nil.
  - rewrite generate_loop_cons.
    destruct (stat env (fs w) _) as [e|r] eqn:Hst.
    + assert (¬ present env (fs w) (output_path_of category_folder icon_name)) as Hnp.
      { intros [r Hr]. congruence. }
      destruct (save_outcome env (fs w) _) as [x|k] eqn:Hs.
      * destruct (IH count (printed w [error_line (str.replace icon_name ".png" "") x]))
          as (total & out & t' & -> & Hc & G & S).
        exists total, ([error_line (str.replace icon_name ".png" "") x] ++ out), t'.
        simpl in *. rewrite <- app_assoc. split; [done|]. split; [lia|]. split; [exact G|].
        intros n [->|?]%elem_of_cons; [|by apply S].
        eapply grows_settled; [exact G|].
        right. unfold save_outcome in Hs.
        destruct (decide (str.lower (os.path.extension (output_path_of category_folder icon_name)) = ".png"));
          [right|by left].
        destruct (locate env (fs w) _); [by eauto|done].
      * destruct (save_outcome_grows env (λ img, img = icon) _ _ _ icon Hnp Hs eq_refl)
          as (Hk & G1 & Hst').
        destruct (IH (count + 1)
                    {| fs := <[k := File (Picture icon)]> (fs w); stdout := stdout w |})
          as (total & out & t' & -> & Hc & G & S).
        exists total, out, t'. simpl in *.
        assert (grows (λ img, img = icon) (fs w) t') as G' by (by eapply grows_trans).
        split; [done|]. split; [lia|]. split; [exact G'|].
        intros n [->|?]%elem_of_cons; [|by apply S].
        left. eapply grows_present; [exact G|]. by eexists.
    + destruct (IH count w) as (total & out & t' & -> & Hc & G & S).
      exists total, out, t'. split; [done|]. split; [simpl; lia|]. split; [exact G|].
      intros n [->|?]%elem_of_cons; [|by apply S].
      left. eapply grows_present; [exact G|]. by eexists.
Qed.

(** On settled entries the loop changes no file and counts nothing. *)
Lemma generate_loop_settled icon_names : ∀ count w,
  (∀ icon_name, icon_name ∈ icon_names →
                settled env (fs w) (output_path_of category_folder icon_name)) →
  ∃ out, loop icon_names count w = (inr count, printed w out).
Proof.
  induction icon_names as [|icon_name rest IH]; intros count w S.
  - exists []. by rewrite printed_nil.
  - rewrite generate_loop_cons.
    assert (∀ n, n ∈ rest → settled env (fs w) (output_path_of category_folder n)) as S'.
    { intros n Hn. apply S. by right. }
    destruct (stat env (fs w) _) as [e|r] eqn:Hst; [|by apply IH].
    assert (∃ x, save_outcome env (fs w) (output_path_of category_folder icon_name) = inl x)
      as [x ->].
    { unfold save_outcome. destruct (S icon_name) as [[r Hr]|[Hx|[e' He]]]; [by left|congruence|..].
      - destruct (decide _); [done|by eauto].
      - rewrite He. destruct (decide _); by eauto. }
    destruct (IH count (printed w [error_line (str.replace icon_name ".png" "") x])) as [out ->];
      [done|].
    rewrite printed_printed. by eauto.
Qed.

End Loop.

(** ** The category processor *)

Lemma grows_weaken (P Q : image → Prop) t t' :
  (∀ img, P img → Q img) → grows P t t' → grows Q t t'.
Proof.
  intros PQ [H N]. split; [done|]. intros k Hk Hs.
  destruct (N k Hk Hs) as (name & d & img & ? & ? & ? & ?). exists name, d, img. eauto.
Qed.

Lemma basename_app_sep a b :
  os.path.basename (a +:+ String "/" b) = os.path.basename b.
Proof.
  unfold os.path.basename. rewrite split_app_sep.
  destruct (split_cons "/" b) as (x & xs & ->). by rewrite last_app_cons.
Qed.

Lemma manifest_basename category_folder :
  os.path.basename (os.path.join category_folder "icon-names.txt") = "icon-names.txt".
Proof.
  unfold os.path.join. change (str.startswith "icon-names.txt" "/") with false. cbv iota.
  destruct (negb (str.truthy category_folder) || str.endswith category_folder "/") eqn:E.
  - apply orb_true_iff in E as [E|E].
    + by destruct category_folder.
    + apply endswith_sep in E as [s ->]. by rewrite app_assoc_sep, basename_app_sep.
  - change (category_folder +:+ "/" +:+ "icon-names.txt")
      with (category_folder +:+ String "/" "icon-names.txt").
    by rewrite basename_app_sep.
Qed.

Lemma styles_total category_name color_hex shape text :
  CATEGORY_STYLES !! category_name = Some (color_hex, shape, text) →
  ∃ r g b, ∀ w, hex_to_rgb color_hex w = (inr (ColorTuple r g b), w).
Proof.
  unfold CATEGORY_STYLES. intros H%elem_of_list_to_map_2.
  repeat (apply elem_of_cons in H as [H|H];
          [injection H as -> -> -> ->; do 3 eexists; intros w; vm_compute; reflexivity|]).
  by apply elem_of_nil in H.
Qed.

(** The style selection never raises and prints at most the warning. *)
Lemma category_style_run category_name :
  ∃ style, ∀ w,
    category_style category_name w = (inr style, printed w (unknown_warning category_name)).
Proof.
  unfold category_style, unknown_warning.
  destruct (CATEGORY_STYLES !! category_name) as [[[hex shape] text]|] eqn:E.
  - destruct (styles_total _ _ _ _ E) as (r & g & b & H).
    exists (ColorTuple r g b, shape, text). intros w. unfold bind. by rewrite H, printed_nil.
  - by eexists.
Qed.

Section Category.

Variable env : environment.

Lemma stat_manifest_key t category_folder k n :
  stat env t (os.path.join category_folder "icon-names.txt") = inr (k, n) →
  ∃ d, k = "icon-names.txt" :: d.
Proof.
  unfold stat. destruct (lookup_parent env t _) as [|[d c]] eqn:Hp; [done|].
  apply lookup_parent_last in Hp. rewrite manifest_basename in Hp. subst c.
  destruct (node_at t _); [|done]. intros [= <- _]. by exists d.
Qed.

(** No file the tool adds is a manifest. *)
Lemma grows_no_manifest (P : image → Prop) t t' category_folder :
  grows P t t' →
  ¬ present env t (os.path.join category_folder "icon-names.txt") →
  ¬ present env t' (os.path.join category_folder "icon-names.txt").
Proof.
  intros G Hn [[k n] H]. destruct (stat_manifest_key _ _ _ _ H) as [d ->].
  pose proof H as H'. unfold stat in H'.
  destruct (lookup_parent env t' _) as [|[d' c]] eqn:Hp; [done|].
  destruct (node_at t' (step d' c)) as [n'|] eqn:En; [|done]. injection H' as Hk ->.
  destruct (t !! ("icon-names.txt" :: d)) as [m|] eqn:Em.
  - apply Hn. exists ("icon-names.txt" :: d, m). unfold stat.
    apply (grows_lookup_parent env P _ _ _ _ G) in Hp. rewrite Hp, Hk. simpl. by rewrite Em.
  - destruct G as [_ N]. destruct (N _ Em) as (name & d0 & img & [= <- <-] & (_ & _ & Hx) & _).
    + rewrite Hk in En. simpl in En. by eauto.
    + vm_compute in Hx. discriminate.
Qed.

Lemma grows_read_text (P : image → Prop) t t' p s :
  grows P t t' → read_text env t p = inr s → read_text env t' p = inr s.
Proof.
  intros G. unfold read_text. destruct (stat env t p) as [|r] eqn:E; [done|].
  by rewrite (grows_stat env P _ _ _ _ G E).
Qed.

Lemma grows_category_settled (P : image → Prop) t t' category_folder :
  grows P t t' → category_settled env t category_folder →
  category_settled env t' category_folder.
Proof.
  intros G [H|(s & Hs & S)].
  - left. by eapply grows_no_manifest.
  - right. exists s. split; [by eapply grows_read_text|].
    intros n Hn. eapply grows_settled; eauto.
Qed.

(** One run of the processor, by cases on the manifest. *)
Lemma generate_icons_for_category_run category_folder :
  ∃ color shape text, ∀ w,
    let out := unknown_warning (os.path.basename category_folder) in
    category_style (os.path.basename category_folder) w = (inr (color, shape, text), printed w out) ∧
    generate_icons_for_category env category_folder w =
    match stat env (fs w) (os.path.join category_folder "icon-names.txt") with
    | inl _ => (inr 0, printed w (out ++ ["⚠️  No icon-names.txt found in " +:+ category_folder]))
    | inr _ =>
        match read_text env (fs w) (os.path.join category_folder "icon-names.txt") with
        | inl e => (inl e, printed w out)
        | inr s => generate_loop env category_folder (os.path.basename category_folder)
                     color shape text (manifest_names s) 0 (printed w out)
        end
    end.
Proof.
  destruct (category_style_run (os.path.basename category_folder)) as ([[color shape] text] & Hs).
  exists color, shape, text. intros w out. split; [by apply Hs|].
  unfold generate_icons_for_category, bind at 1. rewrite Hs. fold out.
  unfold bind at 1. rewrite exists_run. cbn [fs printed].
  destruct (stat env (fs w) _); simpl.
  - unfold bind, print, ret, printed. simpl. by rewrite <- app_assoc.
  - unfold bind, open_read. simpl fs.
    by destruct (read_text env (fs w) _).
Qed.

(** Whatever its outcome, the processor only adds image files; when it
    returns, the count is not negative and the folder is settled. *)
Lemma generate_icons_for_category_spec category_folder w :
  ∃ res out t',
    generate_icons_for_category env category_folder w =
      (res, {| fs := t'; stdout := stdout w ++ out |}) ∧
    grows (λ _, True) (fs w) t' ∧
    ∀ count, res = inr count → 0 ≤ count ∧ category_settled env t' category_folder.
Proof.
  destruct (generate_icons_for_category_run category_folder) as (color & shape & text & H).
  destruct (H w) as [_ ->]. clear H.
  set (out := unknown_warning (os.path.basename category_folder)).
  destruct (stat env (fs w) _) as [e|r] eqn:Hst.
  - eexists _, _, _. split; [done|]. split; [apply grows_refl|].
    intros count [= <-]. split; [done|]. left. intros [r Hr]. simpl in Hr. congruence.
  - destruct (read_text env (fs w) _) as [e|s] eqn:Hr.
    + eexists _, _, _. split; [done|]. split; [apply grows_refl|]. done.
    + destruct (generate_loop_spec env category_folder (os.path.basename category_folder)
                  color shape text (manifest_names s) 0 (printed w out))
        as (total & out' & t' & -> & Hc & G & S).
      exists (inr total), (out ++ out'), t'. simpl. rewrite <- app_assoc.
      split; [done|]. split; [by eapply grows_weaken|].
      intros count [= <-]. split; [lia|]. right. exists s.
      split; [by eapply grows_read_text|done].
Qed.

(** On a settled folder the processor returns 0 and changes no file. *)
Lemma generate_icons_for_category_settled category_folder w :
  category_settled env (fs w) category_folder →
  ∃ out, generate_icons_for_category env category_folder w = (inr 0, printed w out).
Proof.
  intros S.
  destruct (generate_icons_for_category_run category_folder) as (color & shape & text & H).
  destruct (H w) as [_ ->]. clear H.
  set (out := unknown_warning (os.path.basename category_folder)).
  destruct (stat env (fs w) _) as [e|r] eqn:Hst; [by eauto|].
  destruct S as [S|(s & -> & S)].
  - destruct S. by exists r.
  - destruct (generate_loop_settled env category_folder (os.path.basename category_folder)
                color shape text (manifest_names s) 0 (printed w out) S) as [out' ->].
    rewrite printed_printed. by eauto.
Qed.

End Category.

(** ** The directory walker *)

Section Walker.

Variable env : environment.

(** One iteration of the loop of [main], by cases on the entry. *)
Lemma main_loop_cons item rest total cats w :
  main_loop env (item :: rest) total cats w =
  match stat env (fs w) (os.path.join ICONS_DIR item) with
  | inr (_, Dir) =>
      match generate_icons_for_category env (os.path.join ICONS_DIR item)
              (printed w [String "010" "📁 Processing " +:+ item +:+ "/..."]) with
      | (inr count, w1) =>
          main_loop env rest (total + count) (cats + 1) (printed w1 [count_line count])
      | (inl e, w1) => (inl e, w1)
      end
  | _ => main_loop env rest total cats w
  end.
Proof.
  cbn [main_loop]. unfold bind at 1, os.path.isdir.
  destruct (stat env (fs w) _) as [|[k [|c]]]; [done| |done].
  unfold bind at 1, print at 1. fold (printed w [String "010" "📁 Processing " +:+ item +:+ "/..."]).
  unfold bind at 1.
  destruct (generate_icons_for_category env _ _) as [[e|count] w1]; [done|].
  unfold bind at 1, count_line. by destruct (0 <? count).
Qed.

(** Whatever its outcome, the loop only adds image files; when it returns,
    every directory it went through is settled. *)
Lemma main_loop_spec items : ∀ total cats w,
  ∃ res out t',
    main_loop env items total cats w = (res, {| fs := t'; stdout := stdout w ++ out |}) ∧
    grows (λ _, True) (fs w) t' ∧
    ∀ counters, res = inr counters →
      ∀ item, item ∈ items → directory env (fs w) (os.path.join ICONS_DIR item) →
              category_settled env t' (os.path.join ICONS_DIR item).
Proof.
  induction items as [|item rest IH]; intros total cats w.
  - exists (inr (total, cats)), [], (fs w). simpl. rewrite app_nil_r. destruct w.
    split; [done|]. split; [apply grows_refl|]. by intros ? _ ? ?%elem_of_nil.
  - rewrite main_loop_cons.
    assert (∀ w0 : world, fs w0 = fs w → (∃ out0, stdout w0 = stdout w ++ out0) →
            ¬ directory env (fs w) (os.path.join ICONS_DIR item) →
            ∃ res out t',
              main_loop env rest total cats w0 = (res, {| fs := t'; stdout := stdout w ++ out |}) ∧
              grows (λ _, True) (fs w) t' ∧
              ∀ counters, res = inr counters →
                ∀ item0, item0 ∈ item :: rest →
                  directory env (fs w) (os.path.join ICONS_DIR item0) →
                  category_settled env t' (os.path.join ICONS_DIR item0)) as Skip.
    { intros w0 Hfs [out0 Hout] Hnd.
      destruct (IH total cats w0) as (res & out & t' & -> & G & S).
      rewrite Hfs in G, S.
      exists res, (out0 ++ out), t'. rewrite Hout, <- app_assoc.
      split; [done|]. split; [done|].
      intros counters Hres item0 [->|Hin]%elem_of_cons Hd; [by destruct Hnd|].
      by apply (S counters). }
    destruct (stat env (fs w) (os.path.join ICONS_DIR item)) as [e|[k [|c]]] eqn:Hst.
    + apply Skip; [done|by exists []; rewrite app_nil_r|]. intros [k Hk]. congruence.
    + destruct (generate_icons_for_category_spec env (os.path.join ICONS_DIR item)
                  (printed w [String "010" "📁 Processing " +:+ item +:+ "/..."]))
        as (res & out & t1 & -> & G1 & S1).
      destruct res as [e|count].
      * eexists _, _, _. simpl. rewrite <- app_assoc. split; [done|]. split; [exact G1|done].
      * destruct (S1 count eq_refl) as [Hc Hset].
        destruct (IH (total + count) (cats + 1)
                    (printed {| fs := t1; stdout := stdout (printed w
                       [String "010" "📁 Processing " +:+ item +:+ "/..."]) ++ out |}
                             [count_line count]))
          as (res & out' & t' & -> & G & S).
        simpl in G, S |- *. eexists res, _, t'. rewrite <- !app_assoc.
        split; [done|]. split; [by eapply grows_trans|].
        intros counters Hres item0 [->|Hin]%elem_of_cons Hd.
        -- by eapply grows_category_settled.
        -- apply (S counters); [done..|]. destruct Hd as [k0 Hk0]. exists k0.
           by eapply grows_stat.
    + apply Skip; [done|by exists []; rewrite app_nil_r|]. intros [k' Hk']. congruence.
Qed.


Lemma elem_of_children (t : gmap apath node) k name :
  name ∈ children t k ↔ is_Some (t !! (name :: k)).
Proof.
  unfold children. rewrite list_elem_of_omap. split.
  - intros ([[|c d] n] & Hin & Hf); simpl in Hf; [done|].
    destruct (decide (d = k)) as [->|]; [|done]. injection Hf as ->.
    apply elem_of_map_to_list in Hin. by eauto.
  - intros [n Hn]. exists (name :: k, n). split; [by apply elem_of_map_to_list|].
    simpl. by rewrite decide_True.
Qed.

Lemma startswith_char c s a :
  str.startswith (String c s) (String a "") = true → a = c.
Proof.
  unfold str.startswith. cbn [String.prefix]. by destruct (ascii_dec a c).
Qed.



Lemma bind_print {A} s (k : M A) w : bind (print s) (λ _, k) w = k (printed w [s]).
Proof. reflexivity. Qed.

(** [main], by cases on the root directory. *)
Lemma main_run w :
  main env w =
  match stat env (fs w) ICONS_DIR with
  | inl _ =>
      (inr tt, printed w
         ["❌ Icons directory not found: " +:+ ICONS_DIR;
          "   Please run reorganize-icons.cjs first to create the folder structure"])
  | inr (_, File _) => (inl (OSError ENOTDIR ICONS_DIR), printed w header)
  | inr (k, Dir) =>
      match main_loop env (children (fs w) k) 0 0 (printed w header) with
      | (inr (total, cats), w1) => (inr tt, printed w1 (footer env total cats))
      | (inl e, w1) => (inl e, w1)
      end
  end.
Proof.
  unfold main, bind at 1. rewrite exists_run.
  destruct (stat env (fs w) ICONS_DIR) as [e|[k n]] eqn:Hst; cbn [negb].
  - by rewrite !bind_print, printed_printed.
  - rewrite !bind_print, printed_printed. fold header.
    unfold bind at 1, os.listdir. cbn [fs printed]. rewrite Hst.
    destruct n as [|c]; [|done].
    unfold bind at 1. destruct (main_loop env _ 0 0 _) as [[e|[total cats]] w1]; [done|].
    rewrite !bind_print. unfold bind at 1, os.path.abspath, ret.
    change (str.startswith ICONS_DIR "/") with false. cbv iota.
    rewrite !bind_print, !printed_printed.
    change (print (str.repeat "=" 70)) with (λ w0, (@inr exn unit tt, printed w0 [str.repeat "=" 70])).
    cbv beta. by rewrite printed_printed.
Qed.

End Walker.

(** ** The properties of the specification *)



(** [main] only adds image files, whatever its outcome. *)
Lemma main_grows env w : grows (λ _, True) (fs w) (fs (main env w).2).
Proof.
  rewrite main_run. destruct (stat env (fs w) ICONS_DIR) as [e|[k [|c]]];
    [apply grows_refl| |apply grows_refl].
  destruct (main_loop_spec env (children (fs w) k) 0 0 (printed w header))
    as (res & out1 & t1 & -> & G & _).
  by destruct res as [e|[total cats]].
Qed.

(** C2 (existing files are preserved).  A file or directory that exists
    before a run is still there, with the same content, after [main] and
    after the category processor, whether they return or raise; and the
    processor skips an entry whose destination exists. *)
Theorem existing_files_preserved env w k n :
  fs w !! k = Some n →
  fs (main env w).2 !! k = Some n ∧
  (∀ category_folder,
     fs (generate_icons_for_category env category_folder w).2 !! k = Some n) ∧
  (∀ category_folder category_name color shape text icon_name rest count,
     present env (fs w) (output_path_of category_folder icon_name) →
     generate_loop env category_folder category_name color shape text
       (icon_name :: rest) count w =
     generate_loop env category_folder category_name color shape text rest count w).
Proof.
  intros Hk. split; [|split].
  - by apply (main_grows env w).
  - intros category_folder.
    destruct (generate_icons_for_category_spec env category_folder w)
      as (res & out & t' & -> & [H _] & _). by apply H.
  - intros ? ? ? ? ? ? ? ? [r Hr]. by rewrite generate_loop_cons, Hr.
Qed.

Lemma existing_files_preserved_witness :
  fs (main sample_env (sample_world end_to_end_manifest)).2
    !! ["icon-names.txt"; "objectives"; "icons-pathfinding"; "project"]
  = Some (File (Text end_to_end_manifest)).
Proof.
  apply (existing_files_preserved sample_env (sample_world end_to_end_manifest)).
  vm_compute. reflexivity.
Defined.


Section Complete.

Variable env : environment.
Variables (category_folder category_name : string) (color : color) (shape text : string).

Local Abbreviation icon := (icon_image env color shape text).





End Complete.





(** C4 (extension normalisation), evaluated: [foo.png] and [foo] have the
    same destination, but a [.png] inside a name is removed as well, so
    [map.png.old] is saved as [map.old.png]. *)
Example inner_extension_removed :
  output_path_of "icons-pathfinding/objectives" "foo.png"
    = "icons-pathfinding/objectives/foo.png" ∧
  output_path_of "icons-pathfinding/objectives" "foo"
    = "icons-pathfinding/objectives/foo.png" ∧
  output_path_of "icons-pathfinding/objectives" "map.png.old"
    = "icons-pathfinding/objectives/map.old.png".
Proof. repeat split; vm_compute; reflexivity. Qed.

(** C5 (per-icon failure containment).  When [draw_icon] raises for an entry
    whose destination does not exist, the loop prints the error line with the
    icon name, keeps the count and goes on with the remaining entries in a
    world whose files are unchanged; and the loop as a whole always returns,
    with a count that the failed entry did not raise. *)
Theorem icon_failure_contained env category_folder category_name color shape text
    icon_name rest count w e :
  ¬ present env (fs w) (output_path_of category_folder icon_name) →
  (draw_icon env category_name color shape text
     (output_path_of category_folder icon_name) w).1 = inl e →
  generate_loop env category_folder category_name color shape text
    (icon_name :: rest) count w
  = generate_loop env category_folder category_name color shape text rest count
      (printed w [error_line (str.replace icon_name ".png" "") e]) ∧
  ∃ total out t',
    generate_loop env category_folder category_name color shape text
      (icon_name :: rest) count w
    = (inr total, {| fs := t'; stdout := stdout w ++ out |}) ∧
    total ≤ count + Z.of_nat (length rest).
Proof.
  intros Hnp Hd. destruct (not_present_stat env _ _ Hnp) as [e0 Hst].
  rewrite draw_icon_run in Hd. rewrite generate_loop_cons, Hst.
  destruct (save_outcome env (fs w) _) as [x|k]; [|done].
  injection Hd as ->. split; [done|].
  destruct (generate_loop_spec env category_folder category_name color shape text rest count
              (printed w [error_line (str.replace icon_name ".png" "") e]))
    as (total & out & t' & -> & Hc & _).
  exists total, ([error_line (str.replace icon_name ".png" "") e] ++ out), t'.
  simpl. rewrite <- app_assoc. split; [done|lia].
Qed.

Lemma icon_failure_contained_witness :
  generate_loop sample_env "icons-pathfinding/objectives" "objectives"
    (ColorTuple 255 235 59) "star" "OBJ" ["missing/x.png"; "alpha"] 0
    (sample_world ("missing/x.png" +:+ String "010" "alpha"))
  = generate_loop sample_env "icons-pathfinding/objectives" "objectives"
      (ColorTuple 255 235 59) "star" "OBJ" ["alpha"] 0
      (printed (sample_world ("missing/x.png" +:+ String "010" "alpha"))
         [error_line "missing/x"
            (OSError ENOENT "icons-pathfinding/objectives/missing/x.png")]).
Proof.
  apply (icon_failure_contained sample_env "icons-pathfinding/objectives" "objectives"
           (ColorTuple 255 235 59) "star" "OBJ" "missing/x.png" ["alpha"] 0
           (sample_world ("missing/x.png" +:+ String "010" "alpha"))
           (OSError ENOENT "icons-pathfinding/objectives/missing/x.png")).
  - intros [r Hr]. vm_compute in Hr. discriminate.
  - vm_compute. reflexivity.
Defined.

(** C6 (skip on missing manifest).  In a folder without [icon-names.txt] the
    processor prints the warning, returns 0 and changes no file; the walker
    then counts the folder and goes on with the remaining entries. *)
Theorem missing_manifest_skipped env category_folder w :
  ¬ present env (fs w) (os.path.join category_folder "icon-names.txt") →
  generate_icons_for_category env category_folder w =
    (inr 0, printed w (unknown_warning (os.path.basename category_folder) ++
                       ["⚠️  No icon-names.txt found in " +:+ category_folder])) ∧
  ∀ item rest total cats,
    category_folder = os.path.join ICONS_DIR item →
    directory env (fs w) category_folder →
    main_loop env (item :: rest) total cats w =
    main_loop env rest total (cats + 1)
      (printed w ([String "010" "📁 Processing " +:+ item +:+ "/..."] ++
                  unknown_warning (os.path.basename category_folder) ++
                  ["⚠️  No icon-names.txt found in " +:+ category_folder;
                   "   ℹ️  All icons already exist or none to generate"])).
Proof.
  intros Hnp. destruct (not_present_stat env _ _ Hnp) as [e Hst].
  destruct (generate_icons_for_category_run env category_folder) as (color & shape & text & H).
  split.
  - destruct (H w) as [_ ->]. by rewrite Hst.
  - intros item rest total cats -> [k Hd]. rewrite main_loop_cons, Hd.
    destruct (H (printed w [String "010" "📁 Processing " +:+ item +:+ "/..."])) as [_ ->].
    cbn [fs printed]. rewrite Hst, Z.add_0_r, !printed_printed.
    by rewrite <- !app_assoc.
Qed.

Lemma missing_manifest_skipped_witness :
  generate_icons_for_category sample_env "icons-pathfinding/empty"
    (sample_world end_to_end_manifest) =
  (inr 0, printed (sample_world end_to_end_manifest)
            ["⚠️  Unknown category: empty, using default style";
             "⚠️  No icon-names.txt found in icons-pathfinding/empty"]).
Proof.
  apply (missing_manifest_skipped sample_env "icons-pathfinding/empty"
           (sample_world end_to_end_manifest)).
  intros [r Hr]. vm_compute in Hr. discriminate.
Defined.

(** C7 (missing root directory).  When [icons-pathfinding] does not exist,
    [main] prints the error and the hint to run the folder-structure step,
    and returns without raising, touching no file and processing no
    category. *)
Theorem main_missing_root env w :
  ¬ present env (fs w) ICONS_DIR →
  main env w =
  (inr tt, printed w
     ["❌ Icons directory not found: icons-pathfinding";
      "   Please run reorganize-icons.cjs first to create the folder structure"]).
Proof.
  intros Hnp. destruct (not_present_stat env _ _ Hnp) as [e Hst].
  by rewrite main_run, Hst.
Qed.

Lemma main_missing_root_witness :
  main sample_env bare_world =
  (inr tt, printed bare_world
     ["❌ Icons directory not found: icons-pathfinding";
      "   Please run reorganize-icons.cjs first to create the folder structure"]).
Proof.
  apply main_missing_root. intros [r Hr]. vm_compute in Hr. discriminate.
Defined.

(** The files the processor adds are the icon of the style of the folder. *)
Lemma generate_icons_for_category_icons env category_folder w :
  ∃ color shape text,
    (∀ w0, category_style (os.path.basename category_folder) w0 =
           (inr (color, shape, text),
            printed w0 (unknown_warning (os.path.basename category_folder)))) ∧
    grows (λ img, img = icon_image env color shape text)
          (fs w) (fs (generate_icons_for_category env category_folder w).2) ∧
    ∃ out, stdout (generate_icons_for_category env category_folder w).2 =
           stdout w ++ unknown_warning (os.path.basename category_folder) ++ out.
Proof.
  destruct (generate_icons_for_category_run env category_folder) as (color & shape & text & H).
  exists color, shape, text. split; [intros w0; apply (H w0)|].
  destruct (H w) as [_ ->].
  destruct (stat env (fs w) _) as [e|r].
  - split; [apply grows_refl|]. by eexists [_].
  - destruct (read_text env (fs w) _) as [e|s].
    + split; [apply grows_refl|]. exists []. simpl. by rewrite app_nil_r.
    + destruct (generate_loop_spec env category_folder (os.path.basename category_folder)
                  color shape text (manifest_names s) 0
                  (printed w (unknown_warning (os.path.basename category_folder))))
        as (total & out & t' & -> & _ & G & _).
      split; [exact G|]. exists out. simpl. by rewrite <- app_assoc.
Qed.

(** C8 (style fidelity and fallback).  The table gives [objectives] the star
    and the colour [#ffeb3b], that is (255, 235, 59); every file the processor
    adds to a folder named [objectives] is the icon drawn with them, whose
    shape is a polygon outlined in that colour.  Every file it adds to a
    folder whose name is not in the table is the icon drawn with the circle and
    [#9e9e9e], whose shape is an ellipse outlined in that colour, and the
    warning naming the folder is printed. *)
Theorem style_fidelity env category_folder w :
  let w' := (generate_icons_for_category env category_folder w).2 in
  (os.path.basename category_folder = "objectives" →
   ∀ k, fs w !! k = None → is_Some (fs w' !! k) →
        fs w' !! k =
        Some (File (Picture (icon_image env (ColorTuple 255 235 59) "star" "OBJ")))) ∧
  (CATEGORY_STYLES !! os.path.basename category_folder = None →
   (∀ k, fs w !! k = None → is_Some (fs w' !! k) →
         fs w' !! k =
         Some (File (Picture (icon_image env (ColorString "#9e9e9e") "circle" "???")))) ∧
   ∃ out, stdout w' =
          stdout w ++ ["⚠️  Unknown category: " +:+ os.path.basename category_folder
                       +:+ ", using default style"] ++ out) ∧
  (∀ w0, hex_to_rgb "#ffeb3b" w0 = (inr (ColorTuple 255 235 59), w0)) ∧
  (∀ c, canvas_ops (draw_shape blank c "star") = [Polygon star_vertices (20, 20, 20, 230) c 2]) ∧
  (∀ c, canvas_ops (draw_shape blank c "circle")
        = [Ellipse [Int 4; Int 4; Int 60; Int 60] (20, 20, 20, 230) c 3]).
Proof.
  intros w'. subst w'.
  destruct (generate_icons_for_category_icons env category_folder w)
    as (color & shape & text & Hs & [_ N] & out & Hout).
  assert (∀ k, fs w !! k = None →
               is_Some (fs (generate_icons_for_category env category_folder w).2 !! k) →
               fs (generate_icons_for_category env category_folder w).2 !! k
               = Some (File (Picture (icon_image env color shape text)))) as New.
  { intros k Hk Hin. by destruct (N k Hk Hin) as (? & ? & ? & _ & _ & -> & ->). }
  split; [|split; [|split; [|split]]].
  - intros Hb. specialize (Hs w). rewrite Hb in Hs. vm_compute in Hs.
    injection Hs as <- <- <-. exact New.
  - intros Hn. specialize (Hs w). unfold category_style in Hs. rewrite Hn in Hs.
    injection Hs as <- <- <-. split; [exact New|].
    exists out. rewrite Hout. unfold unknown_warning. by rewrite Hn.
  - intros w0. vm_compute. reflexivity.
  - intros c. reflexivity.
  - intros c. reflexivity.
Qed.

Lemma style_fidelity_witness :
  fs (generate_icons_for_category sample_env "icons-pathfinding/objectives"
        (sample_world end_to_end_manifest)).2
    !! ["alpha.png"; "objectives"; "icons-pathfinding"; "project"]
  = Some (File (Picture (icon_image sample_env (ColorTuple 255 235 59) "star" "OBJ"))) ∧
  fs (generate_icons_for_category sample_env "icons-pathfinding/unknown-cat"
        (sample_world end_to_end_manifest)).2
    !! ["gamma.png"; "unknown-cat"; "icons-pathfinding"; "project"]
  = Some (File (Picture (icon_image sample_env (ColorString "#9e9e9e") "circle" "???"))).
Proof.
  split.
  - apply (style_fidelity sample_env "icons-pathfinding/objectives"
             (sample_world end_to_end_manifest));
      [reflexivity|vm_compute; reflexivity|eexists; vm_compute; reflexivity].
  - apply (style_fidelity sample_env "icons-pathfinding/unknown-cat"
             (sample_world end_to_end_manifest));
      [reflexivity|vm_compute; reflexivity|eexists; vm_compute; reflexivity].
Defined.

(** C9 (star geometry), evaluated.  The polygon drawn for ["star"] has ten
    vertices, but each has equal coordinates: they lie on the diagonal of the
    canvas, take four distinct positions only, and any three of them are
    collinear. *)
Theorem star_vertices_collinear :
  (∀ c, canvas_ops (draw_shape blank c "star") = [Polygon star_vertices (20, 20, 20, 230) c 2]) ∧
  length star_vertices = 10%nat ∧
  Forall (λ v : point, v.1 = v.2) star_vertices ∧
  star_vertices =
    [(Float 54.400000000000006, Float 54.400000000000006); (Float 40, Float 40);
     (Float 54.400000000000006, Float 54.400000000000006); (Float 40, Float 40);
     (Float 54.400000000000006, Float 54.400000000000006); (Float 24, Float 24);
     (Float 9.5999999999999979, Float 9.5999999999999979); (Float 24, Float 24);
     (Float 9.5999999999999979, Float 9.5999999999999979); (Float 24, Float 24)] ∧
  forallb (λ a, forallb (λ b, forallb (λ c, collinear a b c) star_vertices) star_vertices)
          star_vertices = true.
Proof.
  split; [intros c; reflexivity|]. split; [reflexivity|].
  split; [|split; vm_compute; reflexivity].
  repeat constructor; vm_compute; reflexivity.
Qed.

(** C10 (the renderer ignores its category argument).  Two calls of
    [draw_icon] that differ in the category only return the same result and
    leave the same world, in particular the same saved image. *)
Theorem draw_icon_ignores_category env category1 category2 color shape text output_path w :
  draw_icon env category1 color shape text output_path w
  = draw_icon env category2 color shape text output_path w.
Proof. reflexivity. Qed.

(** ** Further properties of the code *)

(** *** [hex_to_rgb] *)

Lemma hex_digit_range c v : hex_digit c = Some v → 0 ≤ v ≤ 15.
Proof.
  unfold hex_digit.
  destruct ((48 <=? nat_of_ascii c)%nat && (nat_of_ascii c <=? 57)%nat) eqn:E1.
  { apply andb_true_iff in E1 as [?%Nat.leb_le ?%Nat.leb_le]. intros [= <-]. lia. }
  destruct ((97 <=? nat_of_ascii c)%nat && (nat_of_ascii c <=? 102)%nat) eqn:E2.
  { apply andb_true_iff in E2 as [?%Nat.leb_le ?%Nat.leb_le]. intros [= <-]. lia. }
  destruct ((65 <=? nat_of_ascii c)%nat && (nat_of_ascii c <=? 70)%nat) eqn:E3; [|done].
  apply andb_true_iff in E3 as [?%Nat.leb_le ?%Nat.leb_le]. intros [= <-]. lia.
Qed.

Lemma lstrip_hashes n d s :
  d ≠ "#"%char →
  str.lstrip (str.repeat "#" n +:+ String d s) "#" = String d s.
Proof.
  intros Hd. unfold str.lstrip. induction n as [|n IH].
  - change (str.repeat "#" 0 +:+ String d s) with (String d s). cbn [str.lstrip_by].
    rewrite bool_decide_eq_false_2; [done|].
    change (list_ascii_of_string "#") with ["#"%char]. by intros ?%list_elem_of_singleton.
  - change (str.repeat "#" (S n) +:+ String d s)
      with (String "#" (str.repeat "#" n +:+ String d s)).
    cbn [str.lstrip_by]. rewrite bool_decide_eq_true_2; [exact IH|].
    change (list_ascii_of_string "#") with ["#"%char]. by left.
Qed.

Lemma int16_pair a b x y w :
  hex_digit a = Some x → hex_digit b = Some y →
  int16 (String a (String b "")) w = (inr (16 * x + y), w).
Proof.
  intros Ha Hb. unfold int16. cbn [str.truthy hex_value]. rewrite Ha, Hb.
  by replace (16 * (16 * 0 + x) + y) with (16 * x + y) by lia.
Qed.

(** X1.  After any number of leading [#], six hexadecimal digits are read as
    three bytes, each between 0 and 255; characters after the sixth digit
    are ignored. *)
Theorem hex_to_rgb_digits (hashes : nat) (d1 d2 d3 d4 d5 d6 : ascii)
    (v1 v2 v3 v4 v5 v6 : Z) (rest : string) (w : world) :
  hex_digit d1 = Some v1 → hex_digit d2 = Some v2 → hex_digit d3 = Some v3 →
  hex_digit d4 = Some v4 → hex_digit d5 = Some v5 → hex_digit d6 = Some v6 →
  hex_to_rgb (str.repeat "#" hashes +:+
              String d1 (String d2 (String d3 (String d4 (String d5 (String d6 rest)))))) w
  = (inr (ColorTuple (16 * v1 + v2) (16 * v3 + v4) (16 * v5 + v6)), w) ∧
  0 ≤ 16 * v1 + v2 ≤ 255 ∧ 0 ≤ 16 * v3 + v4 ≤ 255 ∧ 0 ≤ 16 * v5 + v6 ≤ 255.
Proof.
  intros H1 H2 H3 H4 H5 H6. split.
  - unfold hex_to_rgb. rewrite lstrip_hashes.
    + unfold str.slice. cbn [String.substring Nat.sub].
      assert (∀ s, String.substring 0 0 s = "") as -> by (by intros []).
      unfold bind.
      by rewrite (int16_pair _ _ _ _ _ H1 H2), (int16_pair _ _ _ _ _ H3 H4),
        (int16_pair _ _ _ _ _ H5 H6).
    + intros ->. vm_compute in H1. discriminate.
  - apply hex_digit_range in H1, H2, H3, H4, H5, H6. lia.
Qed.

Lemma hex_to_rgb_digits_witness :
  hex_to_rgb "##FfEb3b80" bare_world = (inr (ColorTuple 255 235 59), bare_world).
Proof.
  apply (hex_to_rgb_digits 2 "F" "f" "E" "b" "3" "b" 15 15 14 11 3 11 "80" bare_world);
    reflexivity.
Defined.

Lemma int16_cases s w :
  (∃ z, int16 s w = (inr z, w)) ∨ (∃ msg, int16 s w = (inl (ValueError msg), w)).
Proof.
  unfold int16. destruct (if str.truthy s then hex_value 0 s else None); [left|right]; by eexists.
Qed.

(** X2.  A colour with fewer than five characters after its leading [#],
    such as the three-digit form, makes [hex_to_rgb] raise [ValueError]. *)
Theorem hex_to_rgb_short_raises (hex_color : string) (w : world) :
  (String.length (str.lstrip hex_color "#") ≤ 4)%nat →
  ∃ msg, hex_to_rgb hex_color w = (inl (ValueError msg), w).
Proof.
  intros Hlen. unfold hex_to_rgb.
  assert (str.slice (str.lstrip hex_color "#") 4 6 = "") as E.
  { unfold str.slice. destruct (str.lstrip hex_color "#") as [|a [|b [|c [|d [|e s]]]]];
      try reflexivity. simpl in Hlen. lia. }
  rewrite E. unfold bind.
  destruct (int16_cases (str.slice (str.lstrip hex_color "#") 0 2) w) as [[r ->]|[msg ->]];
    [|by eauto].
  destruct (int16_cases (str.slice (str.lstrip hex_color "#") 2 4) w) as [[g ->]|[msg ->]];
    [|by eauto].
  by eexists.
Qed.

Lemma hex_to_rgb_short_raises_witness :
  ∃ msg, hex_to_rgb "#fff" bare_world = (inl (ValueError msg), bare_world).
Proof. apply hex_to_rgb_short_raises. vm_compute. lia. Defined.

(** *** The style selection *)

Lemma styles_rgb category_name color_hex shape text :
  CATEGORY_STYLES !! category_name = Some (color_hex, shape, text) →
  ∃ r g b, (∀ w, hex_to_rgb color_hex w = (inr (ColorTuple r g b), w)) ∧
           0 ≤ r ≤ 255 ∧ 0 ≤ g ≤ 255 ∧ 0 ≤ b ≤ 255.
Proof.
  unfold CATEGORY_STYLES. intros H%elem_of_list_to_map_2.
  repeat (apply elem_of_cons in H as [H|H];
          [injection H as -> -> -> ->; do 3 eexists;
           split; [intros w; vm_compute; reflexivity|lia]|]).
  by apply elem_of_nil in H.
Qed.

(** X3.  The style selection returns for every folder name.  A name of the
    table gets its shape and label and its colour as a tuple of three bytes,
    and nothing is printed; any other name gets the grey circle with the
    colour left as a string, and exactly one warning is printed. *)
Theorem category_style_total category_name w :
  ∃ color shape text,
    category_style category_name w
    = (inr (color, shape, text), printed w (unknown_warning category_name)) ∧
    match CATEGORY_STYLES !! category_name with
    | Some (color_hex, shape', text') =>
        shape = shape' ∧ text = text' ∧ unknown_warning category_name = [] ∧
        ∃ r g b, color = ColorTuple r g b ∧
                 hex_to_rgb color_hex w = (inr color, w) ∧
                 0 ≤ r ≤ 255 ∧ 0 ≤ g ≤ 255 ∧ 0 ≤ b ≤ 255
    | None =>
        (color, shape, text) = (ColorString "#9e9e9e", "circle", "???") ∧
        unknown_warning category_name
        = ["⚠️  Unknown category: " +:+ category_name +:+ ", using default style"]
    end.
Proof.
  unfold category_style, unknown_warning.
  destruct (CATEGORY_STYLES !! category_name) as [[[hex shape] text]|] eqn:E.
  - destruct (styles_rgb _ _ _ _ E) as (r & g & b & H & Hr & Hg & Hb).
    exists (ColorTuple r g b), shape, text. unfold bind. rewrite H, printed_nil.
    split; [done|]. do 3 (split; [done|]). by exists r, g, b.
  - by eexists _, _, _.
Qed.

(** *** [draw_icon] *)


(** X4.  A shape name that is none of the nine known ones draws the plain
    rectangle over the whole padded box. *)
Theorem draw_shape_default img c shape :
  shape ∉ known_shapes →
  draw_shape img c shape
  = draw img (Rectangle [Int 4; Int 4; Int 60; Int 60] (20, 20, 20, 230) c 3).
Proof.
  intros H. unfold draw_shape.
  repeat match goal with
         | |- context [decide (shape = ?s)] =>
             destruct (decide (shape = s)) as [E|_];
             [exfalso; apply H; rewrite E; unfold known_shapes; set_solver|]
         end.
  reflexivity.
Qed.

Lemma draw_shape_default_witness :
  draw_shape blank (ColorString "#9e9e9e") "hexagon"
  = draw blank (Rectangle [Int 4; Int 4; Int 60; Int 60] (20, 20, 20, 230)
                          (ColorString "#9e9e9e") 3).
Proof.
  apply draw_shape_default. unfold known_shapes. intros H.
  repeat (apply elem_of_cons in H as [H|H]; [discriminate H|]). by apply elem_of_nil in H.
Defined.

(** X5.  Whatever the shape name and the colour, every coordinate of the
    shape drawn keeps the padding: it lies between 4 and 60 on both axes. *)
Theorem draw_shape_within_padding c shape :
  forallb within_padding (flat_map op_coords (canvas_ops (draw_shape blank c shape))) = true.
Proof. unfold draw_shape. repeat case_decide; vm_compute; reflexivity. Qed.



Lemma base_extension_name name :
  str.lower (os.path.base_extension name) = ".png" →
  ¬ (name = "" ∨ name = "." ∨ name = "..").
Proof. intros H [->|[->| ->]]; vm_compute in H; discriminate. Qed.

(** X7.  [draw_icon] itself has no existence check: called on a path that
    is an existing file with the [.png] extension, it replaces the content of
    that file by the icon. *)
Theorem draw_icon_overwrites env category c shape text output_path w k old :
  stat env (fs w) output_path = inr (k, File old) →
  str.lower (os.path.extension output_path) = ".png" →
  draw_icon env category c shape text output_path w
  = (inr output_path,
     {| fs := <[k := File (Picture (icon_image env c shape text))]> (fs w);
        stdout := stdout w |}).
Proof.
  intros Hst Hext. rewrite draw_icon_run.
  assert (save_outcome env (fs w) output_path = inr k) as ->; [|done].
  unfold save_outcome. rewrite decide_True; [|done].
  unfold stat in Hst. unfold locate.
  destruct (lookup_parent env (fs w) output_path) as [|[d name]] eqn:Hp; [done|].
  unfold os.path.extension in Hext. rewrite (lookup_parent_last _ _ _ _ _ Hp) in Hext.
  pose proof (base_extension_name _ Hext) as Hn.
  rewrite decide_False; [|done]. rewrite (step_name _ _ Hn) in Hst. simpl in Hst.
  destruct (fs w !! (name :: d)) as [[|c0]|]; try done. by injection Hst as <- _.
Qed.

Lemma draw_icon_overwrites_witness :
  draw_icon sample_env "objectives" (ColorTuple 255 235 59) "star" "OBJ"
    "icons-pathfinding/old.png" stale_world
  = (inr "icons-pathfinding/old.png",
     {| fs := <[ ["old.png"; "icons-pathfinding"; "project"] :=
                   File (Picture (icon_image sample_env (ColorTuple 255 235 59) "star" "OBJ")) ]>
                (fs stale_world);
        stdout := stdout stale_world |}).
Proof.
  apply (draw_icon_overwrites sample_env "objectives" (ColorTuple 255 235 59) "star" "OBJ"
           "icons-pathfinding/old.png" stale_world
           ["old.png"; "icons-pathfinding"; "project"] (Text "stale"));
    vm_compute; reflexivity.
Defined.

Lemma save_outcome_cwd env1 env2 t p :
  cwd env1 = cwd env2 → save_outcome env1 t p = save_outcome env2 t p.
Proof.
  intros H. unfold save_outcome, locate, lookup_parent. by rewrite H.
Qed.

(** X8.  The fonts never decide whether [draw_icon] succeeds: two
    environments with the same working directory give the same outcome and
    the same set of files, whatever fonts they can load.  With no font at
    all the label is still drawn, without a font, at the fixed position
    (20, 26). *)
Theorem draw_icon_font_fallback env1 env2 category c shape text output_path w :
  cwd env1 = cwd env2 →
  (draw_icon env1 category c shape text output_path w).1
  = (draw_icon env2 category c shape text output_path w).1 ∧
  dom (fs (draw_icon env1 category c shape text output_path w).2)
  = dom (fs (draw_icon env2 category c shape text output_path w).2) ∧
  (truetype env1 "arial.ttf" 10 = None → load_default env1 = None →
   canvas_ops (icon_image env1 c shape text)
   = canvas_ops (draw_shape blank c shape)
     ++ [DrawText (Float 20, Float 26) (str.slice text 0 3) c None]).
Proof.
  intros H. rewrite !draw_icon_run, (save_outcome_cwd env1 env2 _ _ H).
  split; [|split].
  - by destruct (save_outcome env2 (fs w) output_path).
  - destruct (save_outcome env2 (fs w) output_path); [done|]. simpl.
    by rewrite !dom_insert_L.
  - intros Ht Hd. unfold icon_image, available_font. by rewrite Ht, Hd.
Qed.

Lemma draw_icon_font_fallback_witness :
  (draw_icon sample_env "objectives" (ColorTuple 255 235 59) "star" "OBJ"
     "icons-pathfinding/objectives/alpha.png" (sample_world "")).1
  = (draw_icon {| cwd := ["project"]; truetype := λ _ _, None; load_default := None;
                  textbbox := λ _ _, (Int 0, Int 0, Int 0, Int 0) |}
       "objectives" (ColorTuple 255 235 59) "star" "OBJ"
       "icons-pathfinding/objectives/alpha.png" (sample_world "")).1.
Proof.
  apply (draw_icon_font_fallback sample_env
           {| cwd := ["project"]; truetype := λ _ _, None; load_default := None;
              textbbox := λ _ _, (Int 0, Int 0, Int 0, Int 0) |}).
  reflexivity.
Defined.

(** *** The category processor *)

(** X9.  The category processor is idempotent on its own: once it has
    returned, a second call on the same folder returns 0, prints only, and
    changes no file. *)
Theorem category_processor_idempotent env category_folder w count w1 :
  generate_icons_for_category env category_folder w = (inr count, w1) →
  ∃ out, generate_icons_for_category env category_folder w1 = (inr 0, printed w1 out).
Proof.
  intros Hrun.
  destruct (generate_icons_for_category_spec env category_folder w)
    as (res & out & t' & Heq & _ & S).
  rewrite Heq in Hrun. injection Hrun as -> <-.
  destruct (S count eq_refl) as [_ Hset].
  by apply generate_icons_for_category_settled.
Qed.

Lemma category_processor_idempotent_witness :
  ∃ out,
    generate_icons_for_category sample_env "icons-pathfinding/objectives"
      (generate_icons_for_category sample_env "icons-pathfinding/objectives"
         (sample_world end_to_end_manifest)).2
    = (inr 0, printed (generate_icons_for_category sample_env "icons-pathfinding/objectives"
                         (sample_world end_to_end_manifest)).2 out).
Proof.
  apply (category_processor_idempotent sample_env "icons-pathfinding/objectives"
           (sample_world end_to_end_manifest) 2).
  vm_compute. reflexivity.
Defined.

(** The loop counts exactly the files it adds. *)
Lemma generate_loop_count env category_folder category_name color shape text icon_names :
  ∀ count w,
  ∃ total out t',
    generate_loop env category_folder category_name color shape text icon_names count w
    = (inr total, {| fs := t'; stdout := stdout w ++ out |}) ∧
    Z.of_nat (size t') = Z.of_nat (size (fs w)) + (total - count) ∧
    count ≤ total ≤ count + Z.of_nat (length icon_names).
Proof.
  induction icon_names as [|icon_name rest IH]; intros count w.
  - exists count, [], (fs w). simpl. rewrite app_nil_r. destruct w. split; [done|]. lia.
  - rewrite generate_loop_cons.
    destruct (stat env (fs w) _) as [e|r] eqn:Hst.
    + assert (¬ present env (fs w) (output_path_of category_folder icon_name)) as Hnp.
      { intros [r Hr]. congruence. }
      destruct (save_outcome env (fs w) _) as [x|k] eqn:Hs.
      * destruct (IH count (printed w [error_line (str.replace icon_name ".png" "") x]))
          as (total & out & t' & -> & Hsz & Hc).
        eexists total, _, t'. simpl in *. rewrite <- app_assoc. split; [done|]. lia.
      * destruct (save_outcome_grows env (λ _, True) _ _ _
                    (icon_image env color shape text) Hnp Hs I) as (Hk & _).
        destruct (IH (count + 1)
                    {| fs := <[k := File (Picture (icon_image env color shape text))]> (fs w);
                       stdout := stdout w |})
          as (total & out & t' & -> & Hsz & Hc).
        exists total, out, t'. simpl in *. split; [done|].
        rewrite (map_size_insert_None _ _ _ Hk) in Hsz. lia.
    + destruct (IH count w) as (total & out & t' & -> & Hsz & Hc).
      exists total, out, t'. split; [done|]. simpl. lia.
Qed.

(** X10.  The count the processor returns is the number of files it added:
    the file system it leaves has exactly that many more entries than the one
    it was given, which it contains; and the count is at most the number of
    names in the manifest. *)
Theorem generated_count_is_new_files env category_folder w count w1 :
  generate_icons_for_category env category_folder w = (inr count, w1) →
  fs w ⊆ fs w1 ∧
  Z.of_nat (size (fs w1)) = Z.of_nat (size (fs w)) + count ∧
  0 ≤ count ∧
  ∀ s, read_text env (fs w) (os.path.join category_folder "icon-names.txt") = inr s →
       count ≤ Z.of_nat (length (manifest_names s)).
Proof.
  intros Hrun. split.
  { destruct (generate_icons_for_category_spec env category_folder w)
      as (res & out & t' & Heq & [H _] & _).
    rewrite Heq in Hrun. injection Hrun as _ <-. simpl.
    apply map_subseteq_spec. exact H. }
  destruct (generate_icons_for_category_run env category_folder) as (color & shape & text & H).
  destruct (H w) as [_ Heq]. clear H. rewrite Heq in Hrun.
  destruct (stat env (fs w) _) as [e|r] eqn:Hst.
  - injection Hrun as <- <-. simpl. split; [lia|]. split; [done|].
    intros s Hr. unfold read_text in Hr. by rewrite Hst in Hr.
  - destruct (read_text env (fs w) _) as [e|s] eqn:Hr; [done|].
    destruct (generate_loop_count env category_folder (os.path.basename category_folder)
                color shape text (manifest_names s) 0
                (printed w (unknown_warning (os.path.basename category_folder))))
      as (total & out & t' & Hl & Hsz & Hc).
    rewrite Hl in Hrun. injection Hrun as <- <-. simpl in *.
    split; [lia|]. split; [lia|]. intros s' [= <-]. lia.
Qed.

Lemma generated_count_is_new_files_witness :
  Z.of_nat (size (fs (generate_icons_for_category sample_env "icons-pathfinding/objectives"
                        (sample_world end_to_end_manifest)).2))
  = Z.of_nat (size (fs (sample_world end_to_end_manifest))) + 2.
Proof.
  apply (generated_count_is_new_files sample_env "icons-pathfinding/objectives"
           (sample_world end_to_end_manifest) 2).
  vm_compute. reflexivity.
Defined.

(** X11.  All the icons the processor adds to a folder are one and the same
    image, the one drawn with the style selected for the name of the
    folder: the name of an icon has no influence on its content. *)
Theorem icons_of_a_folder_identical env category_folder w :
  ∃ color shape text,
    (category_style (os.path.basename category_folder) w).1 = inr (color, shape, text) ∧
    ∀ k, fs w !! k = None →
         is_Some (fs (generate_icons_for_category env category_folder w).2 !! k) →
         fs (generate_icons_for_category env category_folder w).2 !! k
         = Some (File (Picture (icon_image env color shape text))).
Proof.
  destruct (generate_icons_for_category_icons env category_folder w)
    as (color & shape & text & Hs & [_ N] & _).
  exists color, shape, text. split; [by rewrite Hs|].
  intros k Hk Hin. by destruct (N k Hk Hin) as (? & ? & ? & _ & _ & -> & ->).
Qed.

(** X12.  A manifest that exists but cannot be read as text (it is a
    directory, or an image) is not contained: the processor raises the error
    of [open], and the walker stops there, the remaining entries of the root
    being left unprocessed. *)
Theorem unreadable_manifest_aborts env category_folder w e :
  present env (fs w) (os.path.join category_folder "icon-names.txt") →
  read_text env (fs w) (os.path.join category_folder "icon-names.txt") = inl e →
  generate_icons_for_category env category_folder w
  = (inl e, printed w (unknown_warning (os.path.basename category_folder))) ∧
  ∀ item rest total cats,
    category_folder = os.path.join ICONS_DIR item →
    directory env (fs w) category_folder →
    main_loop env (item :: rest) total cats w
    = (inl e, printed w ([String "010" "📁 Processing " +:+ item +:+ "/..."] ++
                         unknown_warning (os.path.basename category_folder))).
Proof.
  intros [r Hst] Hr.
  destruct (generate_icons_for_category_run env category_folder) as (color & shape & text & H).
  split.
  - destruct (H w) as [_ ->]. by rewrite Hst, Hr.
  - intros item rest total cats -> [k Hd]. rewrite main_loop_cons, Hd.
    destruct (H (printed w [String "010" "📁 Processing " +:+ item +:+ "/..."])) as [_ ->].
    cbn [fs printed]. rewrite Hst, Hr. by rewrite printed_printed.
Qed.

Lemma unreadable_manifest_aborts_witness :
  generate_icons_for_category sample_env "icons-pathfinding/objectives" broken_world
  = (inl (OSError EISDIR "icons-pathfinding/objectives/icon-names.txt"),
     printed broken_world (unknown_warning (os.path.basename "icons-pathfinding/objectives"))).
Proof.
  apply (unreadable_manifest_aborts sample_env "icons-pathfinding/objectives" broken_world).
  - eexists. vm_compute. reflexivity.
  - vm_compute. reflexivity.
Defined.

(** *** Normalisation of the entries *)

Lemma append_cons c s t : String c s +:+ t = String c (s +:+ t).
Proof. reflexivity. Qed.

Lemma prefix_empty s : String.prefix "" s = true.
Proof. by destruct s. Qed.

Lemma prefix_app p x y :
  (String.length p ≤ String.length x)%nat → String.prefix p (x +:+ y) = String.prefix p x.
Proof.
  revert x. induction p as [|a p IH]; intros x Hlen.
  - by rewrite !prefix_empty.
  - destruct x as [|b x]; [simpl in Hlen; lia|].
    rewrite append_cons. cbn [String.prefix].
    destruct (ascii_dec a b); [|done]. apply IH. simpl in Hlen. lia.
Qed.

Lemma prefix_short p x :
  (String.length x < String.length p)%nat → String.prefix p x = false.
Proof.
  revert x. induction p as [|a p IH]; intros x Hlen; [simpl in Hlen; lia|].
  destruct x as [|b x]; [done|]. cbn [String.prefix].
  destruct (ascii_dec a b); [|done]. apply IH. simpl in Hlen. lia.
Qed.

Lemma replace_png_cons c s :
  str.replace_from ".png" "" 0 (String c s)
  = if String.prefix ".png" (String c s) then str.replace_from ".png" "" 3 s
    else String c (str.replace_from ".png" "" 0 s).
Proof. reflexivity. Qed.

Lemma replace_png_skip k c s :
  str.replace_from ".png" "" (S k) (String c s) = str.replace_from ".png" "" k s.
Proof. reflexivity. Qed.

Lemma replace_png_app x : ∀ k,
  (k ≤ String.length x)%nat →
  str.replace_from ".png" "" k (x +:+ ".png") = str.replace_from ".png" "" k x.
Proof.
  induction x as [|c x IH]; intros k Hk.
  - simpl in Hk. by replace k with 0%nat by lia.
  - rewrite append_cons. destruct k as [|k].
    + rewrite !replace_png_cons, <- append_cons.
      destruct (le_lt_dec 3 (String.length x)) as [Hlong|Hshort].
      * rewrite prefix_app by (simpl; lia).
        destruct (String.prefix ".png" (String c x)); [by apply IH|].
        f_equal. apply IH. lia.
      * rewrite (prefix_short ".png" (String c x)) by (simpl; lia).
        assert (String.prefix ".png" (String c x +:+ ".png") = false) as ->.
        { destruct (String.prefix ".png" (String c x +:+ ".png")) eqn:E; [|done].
          apply String.prefix_correct in E.
          destruct x as [|c1 [|c2 [|c3 x]]]; [..|simpl in Hshort; lia];
            vm_compute in E; congruence. }
        f_equal. apply IH. lia.
    + rewrite !replace_png_skip. apply IH. simpl in Hk. lia.
Qed.

(** X13.  Writing an entry with or without a final [.png] makes no
    difference: for every name, the entry [name.png] has the destination of
    the entry [name]. *)
Theorem trailing_extension_optional category_folder icon_name :
  output_path_of category_folder (icon_name +:+ ".png")
  = output_path_of category_folder icon_name.
Proof.
  unfold output_path_of, str.replace. rewrite replace_png_app; [done|lia].
Qed.

Section Strip.

Variable drop : ascii → bool.

Lemma lstrip_by_head s :
  str.lstrip_by drop s = "" ∨
  ∃ c t, str.lstrip_by drop s = String c t ∧ drop c = false.
Proof.
  induction s as [|c s IH]; [by left|]. simpl.
  destruct (drop c) eqn:E; [done|]. right. by exists c, s.
Qed.

Lemma rstrip_by_cons c s :
  drop c = false → ∃ t, str.rstrip_by drop (String c s) = String c t.
Proof.
  intros E. simpl. destruct (str.rstrip_by drop s); rewrite ?E; by eexists.
Qed.

Lemma rstrip_by_idempotent s :
  str.rstrip_by drop (str.rstrip_by drop s) = str.rstrip_by drop s.
Proof.
  induction s as [|c s IH]; [done|]. simpl.
  destruct (str.rstrip_by drop s) as [|a r] eqn:E.
  - destruct (drop c) eqn:Ec; [done|]. simpl. by rewrite Ec.
  - change (str.rstrip_by drop (String c (String a r)))
      with (match str.rstrip_by drop (String a r) with
            | "" => if drop c then "" else String c ""
            | String a0 t => String c (String a0 t)
            end).
    by rewrite IH.
Qed.

Lemma strip_by_idempotent s :
  str.rstrip_by drop (str.lstrip_by drop (str.rstrip_by drop (str.lstrip_by drop s)))
  = str.rstrip_by drop (str.lstrip_by drop s).
Proof.
  destruct (lstrip_by_head s) as [->|(c & t & -> & Ec)]; [done|].
  destruct (rstrip_by_cons c t Ec) as [r Hr]. rewrite Hr.
  cbn [str.lstrip_by]. rewrite Ec, <- Hr. apply rstrip_by_idempotent.
Qed.

End Strip.

(** X14.  Every icon name read from a manifest is non-empty and has no
    white space at either end: stripping it again changes nothing. *)
Theorem manifest_names_stripped s icon_name :
  icon_name ∈ manifest_names s → icon_name ≠ "" ∧ str.strip icon_name = icon_name.
Proof.
  unfold manifest_names. intros (line & -> & Hin)%list_elem_of_fmap.
  apply list_elem_of_filter in Hin as [Ht _]. split.
  - intros E. by rewrite E in Ht.
  - apply strip_by_idempotent.
Qed.

Lemma manifest_names_stripped_witness :
  "beta.png" ≠ "" ∧ str.strip "beta.png" = "beta.png".
Proof.
  apply (manifest_names_stripped
           ("  alpha" +:+ String "013" (String "010" (String "009" "beta.png  ")))).
  vm_compute. right. left.
Defined.

(** X15.  A second entry with the destination of the one before it is a
    no-op whenever that one did not fail (its destination existed or was
    saved): the loop goes on as if the second entry were not there.  This
    covers a repeated name and the pair [name], [name.png]. *)
Theorem duplicate_entry_skipped env category_folder category_name color shape text
    first second rest count w :
  output_path_of category_folder second = output_path_of category_folder first →
  (present env (fs w) (output_path_of category_folder first) ∨
   ∃ k, save_outcome env (fs w) (output_path_of category_folder first) = inr k) →
  generate_loop env category_folder category_name color shape text
    (first :: second :: rest) count w
  = generate_loop env category_folder category_name color shape text
      (first :: rest) count w.
Proof.
  intros Hsame Hok. rewrite (generate_loop_cons _ _ _ _ _ _ first (second :: rest)).
  rewrite (generate_loop_cons _ _ _ _ _ _ first rest).
  destruct (stat env (fs w) (output_path_of category_folder first)) as [e|r] eqn:Hst.
  - destruct Hok as [[r Hr]|[k Hk]]; [congruence|]. rewrite Hk.
    assert (¬ present env (fs w) (output_path_of category_folder first)) as Hnp.
    { intros [r Hr]. congruence. }
    destruct (save_outcome_grows env (λ _, True) _ _ _
                (icon_image env color shape text) Hnp Hk I) as (_ & _ & Hst').
    rewrite generate_loop_cons. cbn [fs]. by rewrite Hsame, Hst'.
  - rewrite generate_loop_cons. by rewrite Hsame, Hst.
Qed.

Lemma duplicate_entry_skipped_witness :
  generate_loop sample_env "icons-pathfinding/objectives" "objectives"
    (ColorTuple 255 235 59) "star" "OBJ" ["foo"; "foo.png"; "bar"] 0 (sample_world "")
  = generate_loop sample_env "icons-pathfinding/objectives" "objectives"
      (ColorTuple 255 235 59) "star" "OBJ" ["foo"; "bar"] 0 (sample_world "").
Proof.
  apply (duplicate_entry_skipped sample_env "icons-pathfinding/objectives" "objectives"
           (ColorTuple 255 235 59) "star" "OBJ" "foo" "foo.png" ["bar"] 0 (sample_world "")).
  - reflexivity.
  - right. eexists. vm_compute. reflexivity.
Defined.

(** *** The directory walker *)

(** X16.  When [icons-pathfinding] exists but is a regular file, the
    existence check passes, the header is printed, and [os.listdir] raises
    [NotADirectoryError], which [main] does not catch. *)
Theorem main_root_is_file env w k c :
  stat env (fs w) ICONS_DIR = inr (k, File c) →
  main env w = (inl (OSError ENOTDIR ICONS_DIR), printed w header).
Proof. intros Hst. by rewrite main_run, Hst. Qed.

Lemma main_root_is_file_witness :
  main sample_env file_root_world
  = (inl (OSError ENOTDIR ICONS_DIR), printed file_root_world header).
Proof.
  apply (main_root_is_file sample_env file_root_world ["icons-pathfinding"; "project"]
           (Text "not a folder")).
  vm_compute. reflexivity.
Defined.

Lemma grows_is_directory env (P : image → Prop) t t' p :
  grows P t t' → is_directory env t' p = is_directory env t p.
Proof.
  intros G. unfold is_directory.
  destruct (stat env t p) as [e|[k n]] eqn:E.
  - destruct (stat env t' p) as [e'|[k' [|c]]] eqn:E'; try done.
    apply (grows_stat_dir env P _ _ _ _ G) in E'. congruence.
  - by rewrite (grows_stat env P _ _ _ _ G E).
Qed.

Lemma category_count_size env category_folder w count w1 :
  generate_icons_for_category env category_folder w = (inr count, w1) →
  Z.of_nat (size (fs w1)) = Z.of_nat (size (fs w)) + count.
Proof.
  intros Hrun.
  destruct (generate_icons_for_category_run env category_folder) as (color & shape & text & H).
  destruct (H w) as [_ Heq]. clear H. rewrite Heq in Hrun.
  destruct (stat env (fs w) _) as [e|r] eqn:Hst.
  - injection Hrun as <- <-. simpl. lia.
  - destruct (read_text env (fs w) _) as [e|s] eqn:Hr; [done|].
    destruct (generate_loop_count env category_folder (os.path.basename category_folder)
                color shape text (manifest_names s) 0
                (printed w (unknown_warning (os.path.basename category_folder))))
      as (total & out & t' & Hl & Hsz & Hc).
    rewrite Hl in Hrun. injection Hrun as <- <-. simpl in *. lia.
Qed.

(** The two counters of the loop of [main]: the files added and the
    directories gone through. *)
Lemma main_loop_count env items : ∀ total cats w,
  ∃ res out t',
    main_loop env items total cats w = (res, {| fs := t'; stdout := stdout w ++ out |}) ∧
    grows (λ _, True) (fs w) t' ∧
    ∀ total' cats', res = inr (total', cats') →
      Z.of_nat (size t') = Z.of_nat (size (fs w)) + (total' - total) ∧
      cats' = cats + Z.of_nat (length (filter
                (λ item, is_directory env (fs w) (os.path.join ICONS_DIR item) = true) items)).
Proof.
  induction items as [|item rest IH]; intros total cats w.
  - exists (inr (total, cats)), [], (fs w). simpl. rewrite app_nil_r. destruct w.
    split; [done|]. split; [apply grows_refl|]. intros ? ? [= <- <-]. simpl. lia.
  - rewrite main_loop_cons.
    destruct (stat env (fs w) (os.path.join ICONS_DIR item)) as [e|[k [|c]]] eqn:Hst.
    + rewrite filter_cons_False by (unfold is_directory; by rewrite Hst). apply IH.
    + rewrite filter_cons_True by (unfold is_directory; by rewrite Hst).
      destruct (generate_icons_for_category_spec env (os.path.join ICONS_DIR item)
                  (printed w [String "010" "📁 Processing " +:+ item +:+ "/..."]))
        as (res & out & t1 & Heq & G1 & _).
      rewrite Heq. destruct res as [e|count].
      * eexists _, _, _. simpl. rewrite <- app_assoc. split; [done|]. split; [exact G1|done].
      * pose proof (category_count_size _ _ _ _ _ Heq) as Hsz1.
        destruct (IH (total + count) (cats + 1)
                    (printed {| fs := t1; stdout := stdout (printed w
                       [String "010" "📁 Processing " +:+ item +:+ "/..."]) ++ out |}
                             [count_line count]))
          as (res & out' & t' & -> & G & Hcount).
        simpl in G, Hcount, Hsz1 |- *. eexists res, _, t'. rewrite <- !app_assoc.
        split; [done|]. split; [by eapply grows_trans|].
        intros total' cats' Hres. destruct (Hcount total' cats' Hres) as [Hsz Hcats].
        split; [lia|]. rewrite Hcats. simpl.
        rewrite (list_filter_iff _
                   (λ item, is_directory env (fs w) (os.path.join ICONS_DIR item) = true) rest).
        { lia. }
        intros i. by rewrite (grows_is_directory env _ _ _ _ G1).
    + rewrite filter_cons_False by (unfold is_directory; by rewrite Hst). apply IH.
Qed.

(** X17.  The summary of a run that returns is exact: the total it prints
    is the number of files the run added to the file system, and the number
    of categories is the number of directories among the entries of the
    root, whether they hold a manifest or not. *)
Theorem main_summary_exact env w w1 k :
  stat env (fs w) ICONS_DIR = inr (k, Dir) →
  main env w = (inr tt, w1) →
  ∃ total out,
    stdout w1 = stdout w ++ header ++ out
                ++ footer env total
                     (Z.of_nat (length (filter
                        (λ item, is_directory env (fs w) (os.path.join ICONS_DIR item) = true)
                        (children (fs w) k)))) ∧
    Z.of_nat (size (fs w1)) = Z.of_nat (size (fs w)) + total.
Proof.
  intros Hst. rewrite main_run, Hst.
  destruct (main_loop_count env (children (fs w) k) 0 0 (printed w header))
    as (res & out & t' & -> & _ & Hcount).
  destruct res as [e|[total cats]]; [done|]. intros [= <-].
  destruct (Hcount total cats eq_refl) as [Hsz ->].
  exists total, out. cbn [fs stdout printed] in *. rewrite <- !app_assoc.
  split; [done|lia].
Qed.

Lemma main_summary_exact_witness :
  ∃ total out,
    stdout (main sample_env (sample_world end_to_end_manifest)).2
    = stdout (sample_world end_to_end_manifest) ++ header ++ out
      ++ footer sample_env total
           (Z.of_nat (length (filter
              (λ item, is_directory sample_env (fs (sample_world end_to_end_manifest))
                         (os.path.join ICONS_DIR item) = true)
              (children (fs (sample_world end_to_end_manifest))
                        ["icons-pathfinding"; "project"])))) ∧
    Z.of_nat (size (fs (main sample_env (sample_world end_to_end_manifest)).2))
    = Z.of_nat (size (fs (sample_world end_to_end_manifest))) + total.
Proof.
  apply (main_summary_exact sample_env (sample_world end_to_end_manifest));
    vm_compute; reflexivity.
Defined.

(** X18.  Whatever its outcome, a run adds nothing but image files whose
    name is a single component with the [.png] extension, and it neither
    adds nor removes a directory. *)
Theorem main_adds_only_png_images env w k :
  (fs w !! k = None → is_Some (fs (main env w).2 !! k) →
   ∃ name d img,
     k = name :: d ∧ fs (main env w).2 !! k = Some (File (Picture img)) ∧
     str.split "/" name = [name] ∧
     str.lower (os.path.base_extension name) = ".png") ∧
  (fs (main env w).2 !! k = Some Dir ↔ fs w !! k = Some Dir).
Proof.
  destruct (main_grows env w) as [H N]. split.
  - intros Hk Hin. destruct (N k Hk Hin) as (name & d & img & -> & (Hs & _ & Hx) & Hf & _).
    by exists name, d, img.
  - split; [|by apply H]. intros Hd.
    destruct (fs w !! k) as [n|] eqn:E.
    + apply H in E. congruence.
    + destruct (N k E) as (? & ? & ? & _ & _ & Hf & _); [by eauto|congruence].
Qed.

Lemma join_root_entry item :
  str.split "/" item = [item] →
  os.path.join ICONS_DIR item = ICONS_DIR +:+ String "/" item.
Proof.
  intros Hsplit. unfold os.path.join. destruct item as [|c item]; [done|].
  destruct (str.startswith (String c item) "/") eqn:E; [|done].
  apply startswith_char in E as <-.
  simpl in Hsplit. by destruct (str.split "/" item).
Qed.

(** X19.  The processor recovers the name of an entry from the path [main]
    builds for it: for an entry made of one component, the files added under
    [icons-pathfinding/<entry>] are the icon of the style selected for the
    entry itself, and the warning printed, if any, is the one for the
    entry. *)
Theorem entry_styled_by_name env item w :
  str.split "/" item = [item] →
  os.path.basename (os.path.join ICONS_DIR item) = item ∧
  ∃ color shape text,
    (category_style item w).1 = inr (color, shape, text) ∧
    (∀ k, fs w !! k = None →
          is_Some (fs (generate_icons_for_category env (os.path.join ICONS_DIR item) w).2 !! k) →
          fs (generate_icons_for_category env (os.path.join ICONS_DIR item) w).2 !! k
          = Some (File (Picture (icon_image env color shape text)))) ∧
    ∃ out, stdout (generate_icons_for_category env (os.path.join ICONS_DIR item) w).2
           = stdout w ++ unknown_warning item ++ out.
Proof.
  intros Hsplit.
  assert (os.path.basename (os.path.join ICONS_DIR item) = item) as Hb.
  { rewrite (join_root_entry _ Hsplit), basename_app_sep.
    unfold os.path.basename. by rewrite Hsplit. }
  split; [exact Hb|].
  destruct (generate_icons_for_category_icons env (os.path.join ICONS_DIR item) w)
    as (color & shape & text & Hs & [_ N] & out & Hout).
  rewrite Hb in Hs, Hout. exists color, shape, text. split; [by rewrite Hs|].
  split; [|by exists out].
  intros k Hk Hin. by destruct (N k Hk Hin) as (? & ? & ? & _ & _ & -> & ->).
Qed.

Lemma entry_styled_by_name_witness :
  os.path.basename (os.path.join ICONS_DIR "objectives") = "objectives".
Proof.
  apply (entry_styled_by_name sample_env "objectives" (sample_world "")). reflexivity.
Defined.

Lemma grows_manifest_usable env (P : image → Prop) t t' category_folder :
  grows P t t' → manifest_usable env t category_folder →
  manifest_usable env t' category_folder.
Proof.
  intros G [H|[s H]].
  - left. by eapply grows_no_manifest.
  - right. exists s. by eapply grows_read_text.
Qed.

Lemma category_returns env category_folder w :
  manifest_usable env (fs w) category_folder →
  ∃ count out t',
    generate_icons_for_category env category_folder w
    = (inr count, {| fs := t'; stdout := stdout w ++ out |}) ∧
    grows (λ _, True) (fs w) t'.
Proof.
  intros U.
  destruct (generate_icons_for_category_spec env category_folder w)
    as (res & out & t' & Heq & G & _).
  destruct res as [e|count]; [|by exists count, out, t'].
  exfalso. revert Heq.
  destruct (generate_icons_for_category_run env category_folder) as (color & shape & text & H).
  destruct (H w) as [_ ->]. clear H.
  destruct (stat env (fs w) _) as [e0|r] eqn:Hst; [done|].
  destruct U as [U|[s ->]]; [destruct U; by exists r|].
  destruct (generate_loop_spec env category_folder (os.path.basename category_folder)
              color shape text (manifest_names s) 0
              (printed w (unknown_warning (os.path.basename category_folder))))
    as (total & out' & t'' & -> & _). done.
Qed.

Lemma main_loop_returns env items : ∀ total cats w,
  (∀ item, item ∈ items →
     is_directory env (fs w) (os.path.join ICONS_DIR item) = true →
     manifest_usable env (fs w) (os.path.join ICONS_DIR item)) →
  ∃ counters w1, main_loop env items total cats w = (inr counters, w1).
Proof.
  induction items as [|item rest IH]; intros total cats w U.
  - by eexists _, _.
  - rewrite main_loop_cons.
    assert (∀ i, i ∈ rest →
              is_directory env (fs w) (os.path.join ICONS_DIR i) = true →
              manifest_usable env (fs w) (os.path.join ICONS_DIR i)) as U'.
    { intros i Hi. apply U. by right. }
    destruct (stat env (fs w) (os.path.join ICONS_DIR item)) as [e|[k [|c]]] eqn:Hst;
      [by apply IH| |by apply IH].
    destruct (category_returns env (os.path.join ICONS_DIR item)
                (printed w [String "010" "📁 Processing " +:+ item +:+ "/..."]))
      as (count & out & t' & -> & G).
    { apply U; [by left|]. unfold is_directory. by rewrite Hst. }
    apply IH. intros i Hi Hd. cbn [fs printed] in *.
    rewrite (grows_is_directory env _ _ _ _ G) in Hd.
    eapply grows_manifest_usable; [exact G|]. by apply U'.
Qed.

(** X20.  [main] returns without raising whenever the root is a directory
    and each directory among its entries has a manifest that is either absent
    or a readable text file; per-icon failures never make it raise. *)
Theorem main_returns env w k :
  stat env (fs w) ICONS_DIR = inr (k, Dir) →
  (∀ item, item ∈ children (fs w) k →
     is_directory env (fs w) (os.path.join ICONS_DIR item) = true →
     manifest_usable env (fs w) (os.path.join ICONS_DIR item)) →
  ∃ w1, main env w = (inr tt, w1).
Proof.
  intros Hst U. rewrite main_run, Hst.
  destruct (main_loop_returns env (children (fs w) k) 0 0 (printed w header) U)
    as ([total cats] & w1 & ->). by eexists.
Qed.

Lemma main_returns_witness :
  ∃ w1, main sample_env (sample_world ("missing/x" +:+ String "010" ".png")) = (inr tt, w1).
Proof.
  apply (main_returns sample_env (sample_world ("missing/x" +:+ String "010" ".png"))
           ["icons-pathfinding"; "project"]).
  - vm_compute. reflexivity.
  - intros item Hin _. apply elem_of_children in Hin.
    assert (item ∈ ["objectives"; "unknown-cat"; "empty"]) as Hitem.
    { destruct Hin as [n Hn]. unfold sample_world in Hn. cbn [fs] in Hn.
      apply elem_of_list_to_map_2 in Hn.
      repeat (apply elem_of_cons in Hn as [Hn|Hn]; [simplify_eq; set_solver|]).
      by apply elem_of_nil in Hn. }
    repeat (apply elem_of_cons in Hitem as [->|Hitem]);
      [right; eexists; vm_compute; reflexivity
      |right; eexists; vm_compute; reflexivity
      |left; intros [r Hr]; vm_compute in Hr; discriminate
      |by apply elem_of_nil in Hitem].
Defined.

(** X21.  The loop of the processor prints nothing but error lines: each
    line it prints reports an entry of the list under its stripped name, and
    an entry that is generated or skipped prints nothing, so the lines
    printed and the icons generated together never outnumber the entries. *)
Theorem loop_prints_only_errors env category_folder category_name color shape text icon_names :
  ∀ count w,
  ∃ total out t',
    generate_loop env category_folder category_name color shape text icon_names count w
    = (inr total, {| fs := t'; stdout := stdout w ++ out |}) ∧
    (∀ l, l ∈ out → ∃ icon_name e,
            icon_name ∈ icon_names ∧ l = error_line (str.replace icon_name ".png" "") e) ∧
    (total - count) + Z.of_nat (length out) ≤ Z.of_nat (length icon_names).
Proof.
  induction icon_names as [|icon_name rest IH]; intros count w.
  - exists count, [], (fs w). simpl. rewrite app_nil_r. destruct w.
    split; [done|]. split; [by intros ? ?%elem_of_nil|lia].
  - rewrite generate_loop_cons.
    destruct (stat env (fs w) _) as [e|r].
    + destruct (save_outcome env (fs w) _) as [x|k].
      * destruct (IH count (printed w [error_line (str.replace icon_name ".png" "") x]))
          as (total & out & t' & -> & Hl & Hc).
        exists total, (error_line (str.replace icon_name ".png" "") x :: out), t'.
        simpl. rewrite <- app_assoc. split; [done|]. split; [|simpl in *; lia].
        intros l [->|Hin]%elem_of_cons.
        -- exists icon_name, x. split; [by left|done].
        -- destruct (Hl l Hin) as (n & e' & Hn & ->). exists n, e'. split; [by right|done].
      * destruct (IH (count + 1)
                    {| fs := <[k := File (Picture (icon_image env color shape text))]> (fs w);
                       stdout := stdout w |})
          as (total & out & t' & -> & Hl & Hc).
        exists total, out, t'. split; [done|]. split; [|simpl in *; lia].
        intros l Hin. destruct (Hl l Hin) as (n & e' & Hn & ->).
        exists n, e'. split; [by right|done].
    + destruct (IH count w) as (total & out & t' & -> & Hl & Hc).
      exists total, out, t'. split; [done|]. split; [|simpl in *; lia].
      intros l Hin. destruct (Hl l Hin) as (n & e' & Hn & ->).
      exists n, e'. split; [by right|done].
Qed.
